(** * test_dependabot_go: the request handlers of main.go

    A shallow embedding of [main.go]: the configuration record, the three
    process-wide variables ([config], [openaiClient], [minioClient]), the
    start-up functions [initConfig] and [initClients], and the three HTTP
    handlers registered with huma.  The handlers talk to two remote
    providers (the OpenAI chat API and a MinIO object store); they are
    embedded as interaction trees whose events are the provider calls, so
    that "which calls are made, in which order, and what is answered for
    each provider outcome" are statements about the tree. *)

From Stdlib Require Import String Ascii List ZArith Bool Lia.
From ITree Require Import ITree ITreeFacts Events.State Events.StateFacts.
From ITree Require Import Props.Leaf.
Import ListNotations.
Import ITreeNotations.
Local Open Scope string_scope.
Local Open Scope list_scope.
Local Open Scope itree_scope.

(* ===================================================================== *)
(** ** Data model (main.go, lines 19-52) *)
(* ===================================================================== *)

(** [type Config struct]. *)
Record Config : Type := mkConfig {
  Port        : string;
  OpenAIKey   : string;
  MinIOURL    : string;
  MinIOKey    : string;
  MinIOSecret : string
}.

(** The zero value of [Config]: what the package-level [var config Config]
    holds before [initConfig] runs. *)
Definition zeroConfig : Config := mkConfig EmptyString EmptyString EmptyString EmptyString EmptyString.

Record ChatRequest : Type := mkChatRequest { Message : string }.

Record ChatResponse : Type := mkChatResponse { Reply : string }.

Record FileUploadRequest : Type := mkFileUploadRequest {
  BucketName : string;
  FileName   : string;
  Content    : string
}.

Record FileUploadResponse : Type := mkFileUploadResponse {
  Success : bool;
  UploadMessage : string
}.

(** A Go [error] is observed by the handlers only through the text its
    [Error()] method returns ([%v] formats exactly that text). *)
Definition error : Type := string.

(** A Go result pair [(T, error)]: [inl err] when [err != nil]. *)
Definition result (T : Type) : Type := (error + T)%type.

(* ===================================================================== *)
(** ** The two clients *)
(* ===================================================================== *)

(** [*openai.Client] as built by [openai.NewClient(authToken)]. *)
Record OpenAIClient : Type := mkOpenAIClient { authToken : string }.

Definition openai_NewClient (key : string) : OpenAIClient :=
  mkOpenAIClient key.

(** [credentials.NewStaticV4(id, secret, token)]. *)
Record Credentials : Type := mkCredentials {
  AccessKeyID     : string;
  SecretAccessKey : string;
  SessionToken    : string
}.

Definition credentials_NewStaticV4 (id secret token : string) : Credentials :=
  mkCredentials id secret token.

(** [minio.Options], the two fields [initClients] sets. *)
Record MinioOptions : Type := mkMinioOptions {
  Creds  : Credentials;
  Secure : bool
}.

(** [*minio.Client]: the endpoint and the options it was built from. *)
Record MinioClient : Type := mkMinioClient {
  endpoint : string;
  options  : MinioOptions
}.

(* ===================================================================== *)
(** ** Provider calls as events *)
(* ===================================================================== *)

(** [openai.ChatCompletionMessage], [openai.ChatCompletionRequest],
    [openai.ChatCompletionChoice] and [openai.ChatCompletionResponse],
    restricted to the fields main.go reads or writes. *)
Record ChatCompletionMessage : Type := mkChatCompletionMessage {
  Role : string;
  MsgContent : string
}.

Record ChatCompletionRequest : Type := mkChatCompletionRequest {
  Model : string;
  Messages : list ChatCompletionMessage
}.

Record ChatCompletionChoice : Type := mkChatCompletionChoice {
  ChoiceMessage : ChatCompletionMessage
}.

Record ChatCompletionResponse : Type := mkChatCompletionResponse {
  Choices : list ChatCompletionChoice
}.

(** The constants [openai.GPT3Dot5Turbo] and [openai.ChatMessageRoleUser]. *)
Definition GPT3Dot5Turbo : string := "gpt-3.5-turbo".
Definition ChatMessageRoleUser : string := "user".

(** The one remote call of the chat handler. *)
Variant openaiE : Type -> Type :=
| CreateChatCompletion (c : OpenAIClient) (req : ChatCompletionRequest)
  : openaiE (result ChatCompletionResponse).

(** [minio.PutObjectOptions], the field the upload handler sets. *)
Record PutObjectOptions : Type := mkPutObjectOptions { ContentType : string }.

(** The three remote calls of the upload handler.  [MakeBucket] returns a
    bare [error]: [None] is [nil]. *)
Variant minioE : Type -> Type :=
| BucketExists (c : MinioClient) (bucketName : string) : minioE (result bool)
| MakeBucket (c : MinioClient) (bucketName : string) : minioE (option error)
| PutObject (c : MinioClient) (bucketName objectName : string)
            (reader : string) (objectSize : Z) (opts : PutObjectOptions)
  : minioE (result unit).
(* [PutObject] also returns an [UploadInfo], which the handler discards. *)

(* ===================================================================== *)
(** ** huma: handler results and their HTTP status *)
(* ===================================================================== *)

(** [huma.ErrorModel], the value behind the [error] a handler returns:
    status, title ([http.StatusText]), detail, and one entry per wrapped
    error holding that error's text. *)
Record ErrorModel : Type := mkErrorModel {
  Status : Z;
  Title  : string;
  Detail : string;
  Errors : list string
}.

Definition huma_Error400BadRequest (msg : string) (errs : list error) : ErrorModel :=
  mkErrorModel 400 "Bad Request" msg errs.

Definition huma_Error500InternalServerError (msg : string) (errs : list error)
  : ErrorModel :=
  mkErrorModel 500 "Internal Server Error" msg errs.

(** What a huma handler returns: a pointer to a struct with one [Body]
    field, and an [error]; exactly one of the two is non-nil. *)
Definition handlerResult (B : Type) : Type := (ErrorModel + B)%type.

(** Modelled from the spec: huma's response writer is a dependency whose
    source is not under src/.  Spec section 6: a handler that returns a
    body is answered with HTTP 200, and one that returns a status error is
    answered with that error's status. *)
Definition httpStatus {B : Type} (r : handlerResult B) : Z :=
  match r with
  | inl e => Status e
  | inr _ => 200
  end.

(* ===================================================================== *)
(** ** Process-wide state (main.go, lines 48-52) *)
(* ===================================================================== *)

(** The three package-level variables, and the lines written by [log]. *)
Record Process : Type := mkProcess {
  config       : Config;
  openaiClient : option OpenAIClient;
  minioClient  : option MinioClient;
  logged       : list string
}.

(** The state at process start: zero config, both client pointers [nil]. *)
Definition process0 : Process := mkProcess zeroConfig None None [].

Definition setConfig (c : Config) (p : Process) : Process :=
  mkProcess c (openaiClient p) (minioClient p) (logged p).

Definition setOpenaiClient (c : option OpenAIClient) (p : Process) : Process :=
  mkProcess (config p) c (minioClient p) (logged p).

Definition setMinioClient (c : option MinioClient) (p : Process) : Process :=
  mkProcess (config p) (openaiClient p) c (logged p).

Definition logLine (s : string) (p : Process) : Process :=
  mkProcess (config p) (openaiClient p) (minioClient p) (logged p ++ [s]).

(* ===================================================================== *)
(** ** Strings: the pieces of Go's [strings] package that are used *)
(* ===================================================================== *)

Definition isLower (c : ascii) : bool :=
  let n := nat_of_ascii c in (97 <=? n)%nat && (n <=? 122)%nat.

(** [strings.ToUpper] on ASCII text. *)
Fixpoint strings_ToUpper (s : string) : string :=
  match s with
  | EmptyString => EmptyString
  | String c s' =>
      String (if isLower c then ascii_of_nat (nat_of_ascii c - 32) else c)
             (strings_ToUpper s')
  end.

(** [strings.NewReplacer(old, new).Replace] for one-byte [old] and [new]. *)
Fixpoint strings_Replace (old new : ascii) (s : string) : string :=
  match s with
  | EmptyString => EmptyString
  | String c s' =>
      String (if Ascii.eqb c old then new else c) (strings_Replace old new s')
  end.

(** [len(s)] converted with [int64(...)]: the number of bytes. *)
Definition len (s : string) : Z := Z.of_nat (String.length s).

(* ===================================================================== *)
(** ** viper: layered configuration *)
(* ===================================================================== *)

(** Modelled from the spec: viper is a dependency whose source is not
    under src/.  Spec sections 2, 6 and 9: one [Config] value is produced
    from layered sources, defaults < file < environment, the environment
    variables carrying a fixed prefix.  The module holds the part of the
    package-level viper instance that [initConfig] drives. *)
Module viper.

(** Flat, string-valued settings, as main.go's five keys are. *)
Definition settings : Type := list (string * string).

Fixpoint lookup (k : string) (m : settings) : option string :=
  match m with
  | [] => None
  | (k', v) :: m' => if String.eqb k k' then Some v else lookup k m'
  end.

Definition keys (m : settings) : list string := List.map fst m.

(** The state of the package-level viper instance that [initConfig]
    touches. *)
Record Viper : Type := mkViper {
  configName    : string;
  configType    : string;
  configPaths   : list string;
  defaults      : settings;
  fileConfig    : settings;
  envPrefix     : string;
  automaticEnvApplied : bool;
  envKeyReplacer : option (ascii * ascii)
}.

(** [viper.New()] / [viper.Reset()]. *)
Definition New : Viper := mkViper "config" EmptyString [] [] [] EmptyString false None.

Definition SetConfigName (n : string) (v : Viper) : Viper :=
  mkViper n (configType v) (configPaths v) (defaults v) (fileConfig v)
          (envPrefix v) (automaticEnvApplied v) (envKeyReplacer v).

Definition SetConfigType (t : string) (v : Viper) : Viper :=
  mkViper (configName v) t (configPaths v) (defaults v) (fileConfig v)
          (envPrefix v) (automaticEnvApplied v) (envKeyReplacer v).

Definition AddConfigPath (p : string) (v : Viper) : Viper :=
  mkViper (configName v) (configType v) (configPaths v ++ [p]) (defaults v)
          (fileConfig v) (envPrefix v) (automaticEnvApplied v)
          (envKeyReplacer v).

Definition SetDefault (k val : string) (v : Viper) : Viper :=
  mkViper (configName v) (configType v) (configPaths v)
          ((k, val) :: defaults v) (fileConfig v) (envPrefix v)
          (automaticEnvApplied v) (envKeyReplacer v).

Definition SetEnvPrefix (p : string) (v : Viper) : Viper :=
  mkViper (configName v) (configType v) (configPaths v) (defaults v)
          (fileConfig v) p (automaticEnvApplied v) (envKeyReplacer v).

Definition AutomaticEnv (v : Viper) : Viper :=
  mkViper (configName v) (configType v) (configPaths v) (defaults v)
          (fileConfig v) (envPrefix v) true (envKeyReplacer v).

Definition SetEnvKeyReplacer (old new : ascii) (v : Viper) : Viper :=
  mkViper (configName v) (configType v) (configPaths v) (defaults v)
          (fileConfig v) (envPrefix v) (automaticEnvApplied v)
          (Some (old, new)).

Definition setFileConfig (m : settings) (v : Viper) : Viper :=
  mkViper (configName v) (configType v) (configPaths v) (defaults v) m
          (envPrefix v) (automaticEnvApplied v) (envKeyReplacer v).

(** The process environment ([os.LookupEnv]) and the file system as
    [ReadInConfig] sees it: given the configured name, type and search
    paths, either the parsed settings of the file found or the error. *)
Definition environ : Type := string -> option string.
Definition filesystem : Type :=
  string -> string -> list string -> result settings.

Definition mergeWithEnvPrefix (v : Viper) (k : string) : string :=
  if String.eqb (envPrefix v) EmptyString
  then strings_ToUpper k
  else strings_ToUpper (envPrefix v ++ "_" ++ k).

(** [getEnv]: the key replacer is applied to the variable name, and an
    empty variable counts as unset. *)
Definition getEnv (v : Viper) (env : environ) (k : string) : option string :=
  let k := match envKeyReplacer v with
           | Some (old, new) => strings_Replace old new k
           | None => k
           end in
  match env k with
  | Some val => if String.eqb val EmptyString then None else Some val
  | None => None
  end.

(** Modelled from the spec: the value of a key comes from the layers in
    the order defaults < file < environment (spec sections 2, 6 and 9),
    the environment variable being the key behind the fixed prefix.  What
    the specification leaves open follows the library: the variable name
    is in upper case, an empty variable counts as unset, and [Unmarshal]
    decodes the keys that the file or a default makes known. *)
Definition find (v : Viper) (env : environ) (k : string) : option string :=
  let fromEnv :=
    if automaticEnvApplied v
    then getEnv v env (mergeWithEnvPrefix v k)
    else None in
  match fromEnv with
  | Some val => Some val
  | None =>
      match lookup k (fileConfig v) with
      | Some val => Some val
      | None => lookup k (defaults v)
      end
  end.

(** [viper.ReadInConfig]: on success the file's settings replace the
    file layer; on failure the instance is unchanged. *)
Definition ReadInConfig (fs : filesystem) (v : Viper) : Viper * option error :=
  match fs (configName v) (configType v) (configPaths v) with
  | inl err => (v, Some err)
  | inr m => (setFileConfig m v, None)
  end.

(** The keys [Unmarshal] decodes: those present in the file or given a
    default ([AllKeys]); each is looked up with [find]. *)
Definition AllKeys (v : Viper) : list string :=
  keys (fileConfig v) ++ keys (defaults v).

Definition AllSettings (v : Viper) (env : environ) : settings :=
  flat_map (fun k => match find v env k with
                     | Some val => [(k, val)]
                     | None => []
                     end) (AllKeys v).

(** Decoding one [mapstructure]-tagged string field: a key that is
    absent from the settings leaves the field as it was. *)
Definition field (tag : string) (m : settings) (old : string) : string :=
  match lookup tag m with
  | Some val => val
  | None => old
  end.

(** [viper.Unmarshal(&config)].  With string-valued settings decoding
    into the five string fields cannot fail. *)
Definition Unmarshal (v : Viper) (env : environ) (c : Config) : Config :=
  let m := AllSettings v env in
  mkConfig (field "port" m (Port c))
           (field "openai_key" m (OpenAIKey c))
           (field "minio_url" m (MinIOURL c))
           (field "minio_key" m (MinIOKey c))
           (field "minio_secret" m (MinIOSecret c)).

End viper.

(* ===================================================================== *)
(** ** Start-up: [initConfig] and [initClients] (main.go, lines 54-107) *)
(* ===================================================================== *)

(** [initConfig]: set up the viper instance, read the optional file,
    decode into the package-level [config]. *)
Definition initConfig (fs : viper.filesystem) (env : viper.environ)
           (vp : viper.Viper * Process) : viper.Viper * Process :=
  let '(v, p) := vp in
  let v := viper.SetConfigName "config" v in
  let v := viper.SetConfigType "yaml" v in
  let v := viper.AddConfigPath "." v in
  let v := viper.AddConfigPath "./config" v in
  let v := viper.SetDefault "port" "8080" v in
  let v := viper.SetDefault "minio_url" "localhost:9000" v in
  let v := viper.SetEnvPrefix "APP" v in
  let v := viper.AutomaticEnv v in
  let v := viper.SetEnvKeyReplacer "." "_" v in
  let '(v, err) := viper.ReadInConfig fs v in
  let p := match err with
           | Some e =>
               logLine ("Config file not found, using defaults and environment variables: " ++ e) p
           | None => p
           end in
  let p := setConfig (viper.Unmarshal v env (config p)) p in
  (v, logLine ("Configuration loaded: Port=" ++ Port (config p)
               ++ ", MinIO URL=" ++ MinIOURL (config p)) p).

Section Startup.

(** [minio.New(endpoint, opts)]: the library validates the endpoint and
    returns either a client or an error (with a [nil] client). *)
Variable minio_New : string -> MinioOptions -> result MinioClient.

Definition initClients (p : Process) : Process :=
  let p :=
    if negb (String.eqb (OpenAIKey (config p)) EmptyString)
    then logLine "OpenAI client initialized"
           (setOpenaiClient (Some (openai_NewClient (OpenAIKey (config p)))) p)
    else logLine "OpenAI API key not provided, chat functionality will be disabled" p in
  if negb (String.eqb (MinIOKey (config p)) EmptyString)
     && negb (String.eqb (MinIOSecret (config p)) EmptyString)
  then
    match minio_New (MinIOURL (config p))
            (mkMinioOptions
               (credentials_NewStaticV4 (MinIOKey (config p))
                                        (MinIOSecret (config p)) EmptyString)
               false) with
    | inl err =>
        logLine ("Failed to initialize MinIO client: " ++ err)
                (setMinioClient None p)
    | inr c => logLine "MinIO client initialized" (setMinioClient (Some c) p)
    end
  else logLine "MinIO credentials not provided, file upload functionality will be disabled" p.

(** The part of [main] that runs before the server listens. *)
Definition startup (fs : viper.filesystem) (env : viper.environ) : Process :=
  initClients (snd (initConfig fs env (viper.New, process0))).

End Startup.

(* ===================================================================== *)
(** ** The three handlers (main.go, lines 133-283) *)
(* ===================================================================== *)

(** The request the chat handler sends for an input. *)
Definition chatCall (c : OpenAIClient) (input : ChatRequest)
  : openaiE (result ChatCompletionResponse) :=
  CreateChatCompletion c
    (mkChatCompletionRequest GPT3Dot5Turbo
       [mkChatCompletionMessage ChatMessageRoleUser (Message input)]).

(** POST /chat (main.go, lines 140-175). *)
Definition chatHandler (p : Process) (input : ChatRequest)
  : itree openaiE (handlerResult ChatResponse) :=
  match openaiClient p with
  | None => Ret (inl (huma_Error400BadRequest "OpenAI client not configured" []))
  | Some c =>
      r <- ITree.trigger (chatCall c input) ;;
      match r with
      | inl err =>
          Ret (inl (huma_Error500InternalServerError
                      "Failed to get OpenAI response" [err]))
      | inr resp =>
          let reply :=
            match Choices resp with
            | c0 :: _ => MsgContent (ChoiceMessage c0)
            | [] => "No response"
            end in
          Ret (inr (mkChatResponse reply))
      end
  end.

(** The three calls of the upload handler for a request. *)
Definition existsCall (c : MinioClient) (input : FileUploadRequest)
  : minioE (result bool) :=
  BucketExists c (BucketName input).

Definition makeCall (c : MinioClient) (input : FileUploadRequest)
  : minioE (option error) :=
  MakeBucket c (BucketName input).

Definition putCall (c : MinioClient) (input : FileUploadRequest)
  : minioE (result unit) :=
  PutObject c (BucketName input) (FileName input) (Content input)
            (len (Content input)) (mkPutObjectOptions "text/plain").

(** The tail of the upload handler (main.go, lines 228-251): write the
    object, answer according to the outcome. *)
Definition uploadObject (c : MinioClient) (input : FileUploadRequest)
  : itree minioE (handlerResult FileUploadResponse) :=
  w <- ITree.trigger (putCall c input) ;;
  match w with
  | inl err =>
      Ret (inr (mkFileUploadResponse false ("Failed to upload file: " ++ err)))
  | inr _ =>
      Ret (inr (mkFileUploadResponse true
                  ("File " ++ FileName input
                   ++ " uploaded successfully to bucket " ++ BucketName input)))
  end.

(** POST /upload (main.go, lines 185-252). *)
Definition uploadHandler (p : Process) (input : FileUploadRequest)
  : itree minioE (handlerResult FileUploadResponse) :=
  match minioClient p with
  | None => Ret (inr (mkFileUploadResponse false "MinIO client not configured"))
  | Some c =>
      r <- ITree.trigger (existsCall c input) ;;
      match r with
      | inl err =>
          Ret (inr (mkFileUploadResponse false
                      ("Failed to check bucket existence: " ++ err)))
      | inr exists_ =>
          if negb exists_
          then
            made <- ITree.trigger (makeCall c input) ;;
            match made with
            | Some err =>
                Ret (inr (mkFileUploadResponse false
                            ("Failed to create bucket: " ++ err)))
            | None => uploadObject c input
            end
          else uploadObject c input
      end
  end.

(** The values the health handler stores in its [map[string]interface{}]:
    a string, a [map[string]bool] or a [map[string]string].  Maps are
    association lists in the order the literal lists the keys; they are
    only ever read by key. *)
Variant jsonValue : Type :=
| JString (s : string)
| JBoolMap (m : list (string * bool))
| JStringMap (m : list (string * string)).

Fixpoint assoc {A : Type} (k : string) (m : list (string * A)) : option A :=
  match m with
  | [] => None
  | (k', a) :: m' => if String.eqb k k' then Some a else assoc k m'
  end.

(** [openaiClient != nil], [minioClient != nil]. *)
Definition notNil {A : Type} (o : option A) : bool :=
  match o with Some _ => true | None => false end.

(** GET /health: no provider event at all, for any event type [E]. *)
Definition healthHandler {E : Type -> Type} (p : Process)
  : itree E (handlerResult (list (string * jsonValue))) :=
  let status :=
    [ ("status", JString "healthy");
      ("services", JBoolMap [ ("openai", notNil (openaiClient p));
                              ("minio", notNil (minioClient p)) ]);
      ("config", JStringMap [ ("port", Port (config p));
                              ("minio_url", MinIOURL (config p)) ]) ] in
  Ret (inr status).

(* ===================================================================== *)
(** ** Running a handler against a provider *)
(* ===================================================================== *)

Section Run.

Context {E : Type -> Type} {W : Type}.

(** A provider: for each call and each state of the remote side, the
    answer and the next state.  Every provider outcome is some [server]. *)
Variable server : forall T : Type, E T -> W -> W * T.

(** One entry of the wire log: a call that was sent. *)
Definition call : Type := sigT E.

Definition callOf {T : Type} (e : E T) : call := existT E T e.

(** Each event is answered by the provider and appended to the log. *)
Definition h_server : E ~> Monads.stateT (W * list call) (itree void1) :=
  fun T e s =>
    let wr := server T e (fst s) in
    Ret ((fst wr, snd s ++ [callOf e]), snd wr).

(** A run from provider state [w] and log [tr]: the final provider
    state, the final log, and the handler's result. *)
Definition run {R : Type} (t : itree E R) (w : W) (tr : list call)
  : itree void1 ((W * list call) * R) :=
  interp_state h_server t (w, tr).

End Run.

(** [n] successive identical POST /upload requests, with their results in
    order. *)
Fixpoint uploadTimes (n : nat) (p : Process) (input : FileUploadRequest)
  : itree minioE (list (handlerResult FileUploadResponse)) :=
  match n with
  | O => Ret []
  | S n' =>
      r <- uploadHandler p input ;;
      rs <- uploadTimes n' p input ;;
      Ret (r :: rs)
  end.

(* ===================================================================== *)
(** ** Concrete providers and inputs, used to exercise the handlers *)
(* ===================================================================== *)

(** An object store kept in memory: the bucket names, and the objects as
    (bucket, name, content). *)
Record Store : Type := mkStore {
  buckets : list string;
  objects : list (string * string * string)
}.

Definition emptyStore : Store := mkStore [] [].

Definition hasBucket (b : string) (s : Store) : bool :=
  existsb (String.eqb b) (buckets s).

Definition minio_memory : forall T : Type, minioE T -> Store -> Store * T :=
  fun T e s =>
    match e in minioE T0 return Store * T0 with
    | BucketExists _ b => (s, inr (hasBucket b s))
    | MakeBucket _ b =>
        if hasBucket b s
        then (s, Some "Your previous request to create the named bucket succeeded and you already own it.")
        else (mkStore (b :: buckets s) (objects s), None)
    | PutObject _ b o content _ _ =>
        if hasBucket b s
        then (mkStore (buckets s) ((b, o, content) :: objects s), inr tt)
        else (s, inl "The specified bucket does not exist")
    end.

(** An object store that cannot be reached. *)
Definition minio_down : forall T : Type, minioE T -> unit -> unit * T :=
  fun T e s =>
    match e in minioE T0 return unit * T0 with
    | BucketExists _ _ => (s, inl "connection refused")
    | MakeBucket _ _ => (s, Some "connection refused")
    | PutObject _ _ _ _ _ _ => (s, inl "connection refused")
    end.

(** A completion provider that answers with the given choices, and one
    that fails. *)
Definition openai_answers (contents : list string)
  : forall T : Type, openaiE T -> unit -> unit * T :=
  fun T e s =>
    match e in openaiE T0 return unit * T0 with
    | CreateChatCompletion _ _ =>
        (s, inr (mkChatCompletionResponse
                   (List.map (fun c => mkChatCompletionChoice
                                         (mkChatCompletionMessage "assistant" c))
                             contents)))
    end.

Definition openai_down : forall T : Type, openaiE T -> unit -> unit * T :=
  fun T e s =>
    match e in openaiE T0 return unit * T0 with
    | CreateChatCompletion _ _ => (s, inl "status code: 401")
    end.

(** [minio.New] that accepts every endpoint, and one that rejects all. *)
Definition minio_New_ok (url : string) (o : MinioOptions) : result MinioClient :=
  inr (mkMinioClient url o).

Definition minio_New_fail (url : string) (o : MinioOptions) : result MinioClient :=
  inl "Endpoint url cannot have fully qualified paths.".

(** No configuration file, and an empty environment. *)
Definition noFile : viper.filesystem :=
  fun _ _ _ => inl "Config File config Not Found in [. ./config]".

Definition noEnv : viper.environ := fun _ => None.

(** Whether a logged call is a bucket creation. *)
Definition isMakeBucket (c : @call minioE) : bool :=
  match projT2 c with
  | MakeBucket _ _ => true
  | _ => false
  end.

(** The inputs of the scenarios in the specification and the tests. *)
Definition helloUpload : FileUploadRequest :=
  mkFileUploadRequest "test" "hello.txt" "Hello World!".

Definition testClient : MinioClient :=
  mkMinioClient "localhost:9000"
    (mkMinioOptions (credentials_NewStaticV4 "test-access-key" "test-secret-key"
                                             EmptyString) false).

Definition withStorage : Process :=
  mkProcess zeroConfig None (Some testClient) [].

(** The scenario of the specification: the file sets the port to 8080,
    the environment sets it to 9090. *)
Definition fileWithPort8080 : viper.filesystem :=
  fun _ _ _ => inr [("port", "8080")].

Definition envPort9090 : viper.environ :=
  fun k => if String.eqb k "APP_PORT" then Some "9090" else None.

(** The environment of the repository's TestInitConfig. *)
Definition testEnv : viper.environ :=
  fun k => if String.eqb k "APP_PORT" then Some "9090"
           else if String.eqb k "APP_MINIO_URL" then Some "test.example.com:9000"
           else None.

(** A configuration with both storage credentials. *)
Definition fullConfig : Config :=
  mkConfig "8080" "test-key" "localhost:9000" "test-access-key" "test-secret-key".

(** The value of an environment variable that is set and not empty. *)
Definition envValue (env : viper.environ) (k : string) : option string :=
  match env k with
  | Some val => if String.eqb val EmptyString then None else Some val
  | None => None
  end.

(** The viper instance [initConfig] arrives at, given the file layer. *)
Definition configured (file : viper.settings) : viper.Viper :=
  viper.mkViper "config" "yaml" ["."; "./config"]
                [("minio_url", "localhost:9000"); ("port", "8080")]
                file "APP" true (Some ("."%char, "_"%char)).

(** The lines of [main] that follow start-up (main.go, lines 127-130):
    the address handed to [http.ListenAndServe], built from the port with
    [fmt.Sprintf], and the line logged before listening. *)
Definition listenAddr (p : Process) : string := ":" ++ Port (config p).

Definition mainUntilListen
           (minio_New : string -> MinioOptions -> result MinioClient)
           (fs : viper.filesystem) (env : viper.environ) : Process * string :=
  let p := startup minio_New fs env in
  let addr := listenAddr p in
  (logLine ("Starting server on " ++ addr) p, addr).

(** The options [initClients] hands to [minio.New] for a configuration. *)
Definition minioOptionsOf (c : Config) : MinioOptions :=
  mkMinioOptions (credentials_NewStaticV4 (MinIOKey c) (MinIOSecret c) EmptyString)
                 false.

(** The file layer [ReadInConfig] ends with: the settings of the file
    found, or nothing when reading failed. *)
Definition fileLayer (fs : viper.filesystem) : viper.settings :=
  match fs "config" "yaml" ["."; "./config"] with
  | inl _ => []
  | inr m => m
  end.

(** A configuration file that holds the three credentials, and an
    environment that replaces the API key. *)
Definition fileWithCredentials : viper.filesystem :=
  fun _ _ _ => inr [("openai_key", "sk-file");
                    ("minio_key", "file-access-key");
                    ("minio_secret", "file-secret-key")].

Definition envOpenAIKey : viper.environ :=
  fun k => if String.eqb k "APP_OPENAI_KEY" then Some "sk-env" else None.

(** A file that cannot be parsed. *)
Definition brokenFile : viper.filesystem :=
  fun _ _ _ => inl "While parsing config: yaml: line 1: did not find expected key".

(* ===================================================================== *)
(** * Facts *)
(* ===================================================================== *)

(** ** Running: the two steps every proof below is made of *)

Section RunFacts.

Context {E : Type -> Type} {W : Type}.
Variable server : forall T : Type, E T -> W -> W * T.

Lemma run_ret {R : Type} (r : R) (w : W) (tr : list call) :
  run server (Ret r) w tr ≈ Ret ((w, tr), r).
Proof.
  unfold run. rewrite interp_state_ret. reflexivity.
Qed.

(** One provider call followed by the rest of the handler: the call is
    logged, the provider moves on, the rest runs on the answer. *)
Lemma run_call {T R : Type} (e : E T) (k : T -> itree E R)
      (w : W) (tr : list call) :
  run server (ITree.bind (ITree.trigger e) k) w tr
  ≈ run server (k (snd (server T e w))) (fst (server T e w))
        (tr ++ [callOf e]).
Proof.
  unfold run.
  rewrite interp_state_bind, interp_state_trigger.
  unfold h_server. cbn. rewrite bind_ret_l. cbn. reflexivity.
Qed.

(** A handler that is a bare [Ret] sends nothing, whatever the provider. *)
Lemma run_silent {R : Type} (t : itree E R) (r : R) (w : W) (tr : list call) :
  t ≈ Ret r -> run server t w tr ≈ Ret ((w, tr), r).
Proof.
  intros Ht. unfold run. rewrite Ht. apply run_ret.
Qed.

(** Sequencing: once the first part is known to return, the rest runs
    from where it stopped. *)
Lemma run_bind {A R : Type} (t : itree E A) (k : A -> itree E R)
      (w w' : W) (tr tr' : list call) (a : A) :
  run server t w tr ≈ Ret ((w', tr'), a) ->
  run server (ITree.bind t k) w tr ≈ run server (k a) w' tr'.
Proof.
  intros Ht. unfold run in *.
  rewrite interp_state_bind, Ht, bind_ret_l. reflexivity.
Qed.

End RunFacts.

(** ** Start-up *)

Section StartupFacts.

Variable minio_New : string -> MinioOptions -> result MinioClient.

Lemma initClients_config (p : Process) :
  config (initClients minio_New p) = config p.
Proof.
  unfold initClients.
  destruct (negb (OpenAIKey (config p) =? EmptyString)%string); cbn;
    destruct (negb (MinIOKey (config p) =? EmptyString)%string
              && negb (MinIOSecret (config p) =? EmptyString)%string); cbn;
    try destruct (minio_New _ _); reflexivity.
Qed.

(** A missing API key leaves [openaiClient] as it was. *)
Lemma initClients_openai_no_key (p : Process) :
  OpenAIKey (config p) = EmptyString ->
  openaiClient (initClients minio_New p) = openaiClient p.
Proof.
  intros H. unfold initClients. rewrite H. cbn.
  destruct (negb (MinIOKey (config p) =? EmptyString)%string
            && negb (MinIOSecret (config p) =? EmptyString)%string);
    [destruct (minio_New _ _)|]; reflexivity.
Qed.

(** A missing access key or secret leaves [minioClient] as it was. *)
Lemma initClients_minio_no_credentials (p : Process) :
  MinIOKey (config p) = EmptyString \/ MinIOSecret (config p) = EmptyString ->
  minioClient (initClients minio_New p) = minioClient p.
Proof.
  intros H. unfold initClients.
  assert (Hc : negb (MinIOKey (config p) =? EmptyString)%string
               && negb (MinIOSecret (config p) =? EmptyString)%string = false).
  { destruct H as [H | H]; rewrite H; cbn; [reflexivity|].
    apply andb_false_r. }
  destruct (negb (OpenAIKey (config p) =? EmptyString)%string); cbn;
    rewrite Hc; reflexivity.
Qed.

(** Both credentials present, construction refused: [minioClient] is
    nil afterwards, whatever it was. *)
Lemma initClients_minio_failed (p : Process) (err : error) :
  MinIOKey (config p) <> EmptyString ->
  MinIOSecret (config p) <> EmptyString ->
  minio_New (MinIOURL (config p))
            (mkMinioOptions
               (credentials_NewStaticV4 (MinIOKey (config p))
                                        (MinIOSecret (config p)) EmptyString)
               false) = inl err ->
  minioClient (initClients minio_New p) = None
  /\ openaiClient (initClients minio_New p)
     = (if (OpenAIKey (config p) =? EmptyString)%string
        then openaiClient p
        else Some (openai_NewClient (OpenAIKey (config p)))).
Proof.
  intros Hk Hs Hn. unfold initClients.
  apply String.eqb_neq in Hk. apply String.eqb_neq in Hs.
  destruct (OpenAIKey (config p) =? EmptyString)%string; cbn;
    rewrite Hk, Hs; cbn; rewrite Hn; cbn; split; reflexivity.
Qed.

End StartupFacts.

(** ** POST /chat *)

Lemma chatHandler_nil (p : Process) (input : ChatRequest) :
  openaiClient p = None ->
  chatHandler p input
  = Ret (inl (huma_Error400BadRequest "OpenAI client not configured" [])).
Proof.
  intros H. unfold chatHandler. rewrite H. reflexivity.
Qed.

Lemma chatHandler_run {W : Type} (server : forall T, openaiE T -> W -> W * T)
      (p : Process) (c : OpenAIClient) (input : ChatRequest)
      (w : W) (tr : list call) :
  openaiClient p = Some c ->
  run server (chatHandler p input) w tr
  ≈ run server
      (match snd (server _ (chatCall c input) w) with
       | inl err =>
           Ret (inl (huma_Error500InternalServerError
                       "Failed to get OpenAI response" [err]))
       | inr resp =>
           Ret (inr (mkChatResponse
                       match Choices resp with
                       | c0 :: _ => MsgContent (ChoiceMessage c0)
                       | [] => "No response"
                       end))
       end)
      (fst (server _ (chatCall c input) w))
      (tr ++ [callOf (chatCall c input)]).
Proof.
  intros H. unfold chatHandler. rewrite H. rewrite run_call. reflexivity.
Qed.

(** C2 (as stated in the specification) does not hold: without a client
    the handler answers 400, but no field of the error carries the text
    "completion client not configured". *)
Lemma chat_without_client_spec_text_absent :
  ~ (exists e : ErrorModel,
        chatHandler process0 (mkChatRequest "Hello, world!") ≈ Ret (inl e)
        /\ Status e = 400%Z
        /\ (Detail e = "completion client not configured"
            \/ Title e = "completion client not configured"
            \/ In "completion client not configured" (Errors e))).
Proof.
  intros [e [He [_ Hm]]].
  rewrite (chatHandler_nil process0 _ eq_refl) in He.
  apply eutt_inv_Ret in He. inversion He; subst e. cbn in Hm.
  destruct Hm as [Hm | [Hm | []]]; discriminate Hm.
Qed.

(** C2 (amended): when [openaiClient] is nil, POST /chat fails with HTTP
    400 whose detail is "OpenAI client not configured", and sends nothing
    to the completion provider: the handler is a bare return, and under
    every provider the provider state and the wire log are unchanged.
    Start-up keeps a nil [openaiClient] nil whenever the API key of the
    configuration is empty, so the same answer is given then. *)
Theorem chat_without_client (p : Process) (input : ChatRequest) :
  openaiClient p = None ->
  let e := mkErrorModel 400 "Bad Request" "OpenAI client not configured" [] in
  let refused (q : Process) :=
    chatHandler q input ≈ Ret (inl e)
    /\ forall (W : Type) (server : forall T, openaiE T -> W -> W * T)
              (w : W) (tr : list call),
         run server (chatHandler q input) w tr ≈ Ret ((w, tr), inl e) in
  httpStatus (@inl ErrorModel ChatResponse e) = 400%Z
  /\ refused p
  /\ forall (minio_New : string -> MinioOptions -> result MinioClient)
            (cfg : Config),
       OpenAIKey cfg = EmptyString ->
       openaiClient (initClients minio_New (setConfig cfg p)) = None
       /\ refused (initClients minio_New (setConfig cfg p)).
Proof.
  intros H e refused.
  assert (Hr : forall q, openaiClient q = None -> refused q).
  { intros q Hq.
    assert (Ht : chatHandler q input ≈ Ret (inl e))
      by (rewrite (chatHandler_nil q input Hq); reflexivity).
    split; [exact Ht|]. intros W server w tr. apply run_silent. exact Ht. }
  split; [reflexivity|]. split; [apply Hr; exact H|].
  intros minio_New cfg Hcfg.
  assert (Hq : openaiClient (initClients minio_New (setConfig cfg p)) = None).
  { rewrite initClients_openai_no_key; [exact H | exact Hcfg]. }
  split; [exact Hq | apply Hr; exact Hq].
Qed.

Lemma chat_without_client_witness :
  openaiClient process0 = None
  /\ run (openai_answers ["Hi there"])
         (chatHandler process0 (mkChatRequest "Hello, world!")) tt []
     ≈ Ret ((tt, []),
            inl (mkErrorModel 400 "Bad Request" "OpenAI client not configured" []))
  /\ openaiClient
       (initClients minio_New_ok
          (setConfig (mkConfig "8080" EmptyString "localhost:9000"
                               "test-access-key" "test-secret-key") process0))
     = None.
Proof.
  split; [reflexivity|].
  destruct (chat_without_client process0 (mkChatRequest "Hello, world!") eq_refl)
    as [_ [[_ Hrun] Hstart]].
  split.
  - apply Hrun.
  - apply (Hstart minio_New_ok
             (mkConfig "8080" EmptyString "localhost:9000"
                       "test-access-key" "test-secret-key")).
    reflexivity.
Defined.

(** C5: with a client configured and a provider call that succeeds, POST
    /chat sends exactly one completion request and answers HTTP 200; the
    reply is "No response" when the provider returned no choice, and the
    content of the first choice otherwise. *)
Theorem chat_reply_first_choice_or_default
        {W : Type} (server : forall T, openaiE T -> W -> W * T)
        (p : Process) (c : OpenAIClient) (input : ChatRequest)
        (w : W) (tr : list call) (resp : ChatCompletionResponse) :
  openaiClient p = Some c ->
  snd (server _ (chatCall c input) w) = inr resp ->
  exists reply : string,
    run server (chatHandler p input) w tr
    ≈ Ret ((fst (server _ (chatCall c input) w),
            tr ++ [callOf (chatCall c input)]),
           inr (mkChatResponse reply))
    /\ httpStatus (@inr ErrorModel ChatResponse (mkChatResponse reply)) = 200%Z
    /\ (Choices resp = [] -> reply = "No response")
    /\ (forall c0 rest, Choices resp = c0 :: rest ->
                        reply = MsgContent (ChoiceMessage c0)).
Proof.
  intros Hc Hr.
  exists (match Choices resp with
          | c0 :: _ => MsgContent (ChoiceMessage c0)
          | [] => "No response"
          end).
  split.
  - rewrite (chatHandler_run server p c input w tr Hc), Hr. apply run_ret.
  - split; [reflexivity|]. split.
    + intros He. rewrite He. reflexivity.
    + intros c0 rest He. rewrite He. reflexivity.
Qed.

Lemma chat_reply_first_choice_or_default_witness :
  exists reply : string,
    run (openai_answers [])
        (chatHandler (mkProcess zeroConfig (Some (openai_NewClient "sk-test")) None [])
                     (mkChatRequest "Hello!")) tt []
    ≈ Ret ((tt, [callOf (chatCall (openai_NewClient "sk-test") (mkChatRequest "Hello!"))]),
           inr (mkChatResponse reply))
    /\ reply = "No response".
Proof.
  destruct (chat_reply_first_choice_or_default
              (openai_answers [])
              (mkProcess zeroConfig (Some (openai_NewClient "sk-test")) None [])
              (openai_NewClient "sk-test") (mkChatRequest "Hello!") tt []
              (mkChatCompletionResponse []) eq_refl eq_refl)
    as [reply [Hrun [_ [Hnil _]]]].
  exists reply. split; [exact Hrun | exact (Hnil eq_refl)].
Defined.

(** C6: with a client configured and a provider call that fails, POST
    /chat fails with HTTP 500; the error lists the provider's error text;
    the request was sent once (no retry) and the failure is not turned
    into a reply. *)
Theorem chat_upstream_failure
        {W : Type} (server : forall T, openaiE T -> W -> W * T)
        (p : Process) (c : OpenAIClient) (input : ChatRequest)
        (w : W) (tr : list call) (err : error) :
  openaiClient p = Some c ->
  snd (server _ (chatCall c input) w) = inl err ->
  let e := mkErrorModel 500 "Internal Server Error"
                        "Failed to get OpenAI response" [err] in
  run server (chatHandler p input) w tr
  ≈ Ret ((fst (server _ (chatCall c input) w),
          tr ++ [callOf (chatCall c input)]),
         inl e)
  /\ httpStatus (@inl ErrorModel ChatResponse e) = 500%Z
  /\ In err (Errors e).
Proof.
  intros Hc Hr e. split.
  - rewrite (chatHandler_run server p c input w tr Hc), Hr. apply run_ret.
  - split; [reflexivity | left; reflexivity].
Qed.

Lemma chat_upstream_failure_witness :
  run openai_down
      (chatHandler (mkProcess zeroConfig (Some (openai_NewClient "sk-test")) None [])
                   (mkChatRequest "Hello!")) tt []
  ≈ Ret ((tt, [callOf (chatCall (openai_NewClient "sk-test") (mkChatRequest "Hello!"))]),
         inl (mkErrorModel 500 "Internal Server Error"
                           "Failed to get OpenAI response" ["status code: 401"])).
Proof.
  apply (chat_upstream_failure
           openai_down
           (mkProcess zeroConfig (Some (openai_NewClient "sk-test")) None [])
           (openai_NewClient "sk-test") (mkChatRequest "Hello!") tt []
           "status code: 401" eq_refl eq_refl).
Defined.

(** ** POST /upload *)

(** [result] and [error] are abbreviations; rewriting wants them unfolded
    on both sides. *)
Ltac plain_results := unfold result, error in *.

Section UploadFacts.

Context {W : Type}.
Variable server : forall T : Type, minioE T -> W -> W * T.
Variables (p : Process) (c : MinioClient) (input : FileUploadRequest).
Hypothesis Hclient : minioClient p = Some c.

(** The object write and the answer that follows it. *)
Lemma uploadObject_run (w : W) (tr : list call) :
  run server (uploadObject c input) w tr
  ≈ Ret ((fst (server _ (putCall c input) w), tr ++ [callOf (putCall c input)]),
         inr match snd (server _ (putCall c input) w) with
             | inl err =>
                 mkFileUploadResponse false ("Failed to upload file: " ++ err)
             | inr _ =>
                 mkFileUploadResponse true
                   ("File " ++ FileName input
                    ++ " uploaded successfully to bucket "
                    ++ BucketName input)
             end).
Proof.
  unfold uploadObject. rewrite run_call. plain_results.
  destruct (snd (server (string + unit)%type (putCall c input) w));
    apply run_ret.
Qed.

(** The existence check failed: nothing else is sent. *)
Lemma upload_run_check_failed (w : W) (tr : list call) (err : error) :
  snd (server _ (existsCall c input) w) = inl err ->
  run server (uploadHandler p input) w tr
  ≈ Ret ((fst (server _ (existsCall c input) w),
          tr ++ [callOf (existsCall c input)]),
         inr (mkFileUploadResponse false
                ("Failed to check bucket existence: " ++ err))).
Proof.
  intros He. unfold uploadHandler. rewrite Hclient, run_call. plain_results. rewrite He.
  apply run_ret.
Qed.

(** The bucket exists: the handler goes straight to the object write. *)
Lemma upload_run_bucket_exists (w : W) (tr : list call) :
  snd (server _ (existsCall c input) w) = inr true ->
  run server (uploadHandler p input) w tr
  ≈ run server (uploadObject c input)
        (fst (server _ (existsCall c input) w))
        (tr ++ [callOf (existsCall c input)]).
Proof.
  intros He. unfold uploadHandler. rewrite Hclient, run_call. plain_results. rewrite He.
  reflexivity.
Qed.

(** The bucket is absent and cannot be created. *)
Lemma upload_run_create_failed (w : W) (tr : list call) (err : error) :
  let w1 := fst (server _ (existsCall c input) w) in
  snd (server _ (existsCall c input) w) = inr false ->
  snd (server _ (makeCall c input) w1) = Some err ->
  run server (uploadHandler p input) w tr
  ≈ Ret ((fst (server _ (makeCall c input) w1),
          (tr ++ [callOf (existsCall c input)]) ++ [callOf (makeCall c input)]),
         inr (mkFileUploadResponse false ("Failed to create bucket: " ++ err))).
Proof.
  intros w1 He Hm. subst w1. unfold uploadHandler. rewrite Hclient, run_call. plain_results. rewrite He.
  cbn [negb]. rewrite run_call. plain_results. rewrite Hm. apply run_ret.
Qed.

(** The bucket is absent and is created: the object write follows. *)
Lemma upload_run_created (w : W) (tr : list call) :
  let w1 := fst (server _ (existsCall c input) w) in
  snd (server _ (existsCall c input) w) = inr false ->
  snd (server _ (makeCall c input) w1) = None ->
  run server (uploadHandler p input) w tr
  ≈ run server (uploadObject c input)
        (fst (server _ (makeCall c input) w1))
        ((tr ++ [callOf (existsCall c input)]) ++ [callOf (makeCall c input)]).
Proof.
  intros w1 He Hm. subst w1. unfold uploadHandler. rewrite Hclient, run_call. plain_results. rewrite He.
  cbn [negb]. rewrite run_call. plain_results. rewrite Hm. reflexivity.
Qed.

(** Every leaf of the handler is a body, never a status error. *)
Lemma uploadHandler_leaf_body (r : handlerResult FileUploadResponse) :
  Leaf r (uploadHandler p input) -> exists body, r = inr body.
Proof.
  assert (Hput : forall r0, Leaf r0 (uploadObject c input) ->
                            exists body, r0 = inr body).
  { intros r0 Hl. unfold uploadObject in Hl.
    apply Leaf_bind_inv in Hl. destruct Hl as [a [_ Hl]].
    destruct a; apply Leaf_Ret_inv in Hl; eauto. }
  intros Hl. unfold uploadHandler in Hl. rewrite Hclient in Hl.
  apply Leaf_bind_inv in Hl. destruct Hl as [a [_ Hl]].
  destruct a as [err | []]; cbn [negb] in Hl.
  - apply Leaf_Ret_inv in Hl. eauto.
  - apply Hput. exact Hl.
  - apply Leaf_bind_inv in Hl. destruct Hl as [m [_ Hl]].
    destruct m as [err |].
    + apply Leaf_Ret_inv in Hl. eauto.
    + apply Hput. exact Hl.
Qed.

End UploadFacts.

Lemma uploadHandler_nil (p : Process) (input : FileUploadRequest) :
  minioClient p = None ->
  uploadHandler p input
  = Ret (inr (mkFileUploadResponse false "MinIO client not configured")).
Proof.
  intros H. unfold uploadHandler. rewrite H. reflexivity.
Qed.

(** C1 (as stated in the specification) does not hold: with the storage
    credentials empty the handler answers 200 with success false, but the
    message is not "storage client not configured". *)
Lemma upload_without_client_spec_text_absent :
  ~ (uploadHandler (initClients minio_New_ok process0) helloUpload
     ≈ Ret (inr (mkFileUploadResponse false "storage client not configured"))).
Proof.
  intros H.
  rewrite (uploadHandler_nil (initClients minio_New_ok process0) helloUpload eq_refl)
    in H.
  apply eutt_inv_Ret in H. discriminate H.
Qed.

(** C1 (amended): when [minioClient] is nil, POST /upload answers HTTP 200
    with success false and the message "MinIO client not configured", and
    sends nothing to the storage provider.  Start-up keeps a nil
    [minioClient] nil whenever the access key or the secret of the
    configuration is empty, so the same answer is given then. *)
Theorem upload_without_client (p : Process) (input : FileUploadRequest) :
  minioClient p = None ->
  let body := mkFileUploadResponse false "MinIO client not configured" in
  let degraded (q : Process) :=
    uploadHandler q input ≈ Ret (inr body)
    /\ forall (W : Type) (server : forall T, minioE T -> W -> W * T)
              (w : W) (tr : list call),
         run server (uploadHandler q input) w tr ≈ Ret ((w, tr), inr body) in
  httpStatus (@inr ErrorModel FileUploadResponse body) = 200%Z
  /\ degraded p
  /\ forall (minio_New : string -> MinioOptions -> result MinioClient)
            (cfg : Config),
       MinIOKey cfg = EmptyString \/ MinIOSecret cfg = EmptyString ->
       minioClient (initClients minio_New (setConfig cfg p)) = None
       /\ degraded (initClients minio_New (setConfig cfg p)).
Proof.
  intros H body degraded.
  assert (Hd : forall q, minioClient q = None -> degraded q).
  { intros q Hq.
    assert (Ht : uploadHandler q input ≈ Ret (inr body))
      by (rewrite (uploadHandler_nil q input Hq); reflexivity).
    split; [exact Ht|]. intros W server w tr. apply run_silent. exact Ht. }
  split; [reflexivity|]. split; [apply Hd; exact H|].
  intros minio_New cfg Hcfg.
  assert (Hq : minioClient (initClients minio_New (setConfig cfg p)) = None).
  { rewrite initClients_minio_no_credentials; [exact H | exact Hcfg]. }
  split; [exact Hq | apply Hd; exact Hq].
Qed.

Lemma upload_without_client_witness :
  minioClient process0 = None
  /\ run minio_memory (uploadHandler process0 helloUpload) emptyStore []
     ≈ Ret ((emptyStore, []),
            inr (mkFileUploadResponse false "MinIO client not configured"))
  /\ minioClient
       (initClients minio_New_ok
          (setConfig (mkConfig "8080" "sk-test" "localhost:9000"
                               "test-access-key" EmptyString) process0))
     = None.
Proof.
  split; [reflexivity|].
  destruct (upload_without_client process0 helloUpload eq_refl)
    as [_ [[_ Hrun] Hstart]].
  split.
  - apply Hrun.
  - apply (Hstart minio_New_ok
             (mkConfig "8080" "sk-test" "localhost:9000"
                       "test-access-key" EmptyString)).
    right. reflexivity.
Defined.

(** C3 (as stated in the specification) does not hold: when the existence
    check fails the message starts with a capital letter, so it is not
    "failed to check bucket existence: <err>". *)
Lemma upload_check_failed_spec_text_absent :
  ~ (exists (s : unit * list call),
        run minio_down (uploadHandler withStorage helloUpload) tt []
        ≈ Ret (s, inr (mkFileUploadResponse false
                         "failed to check bucket existence: connection refused"))).
Proof.
  intros [s H].
  rewrite (upload_run_check_failed minio_down withStorage testClient helloUpload
             eq_refl tt [] "connection refused" eq_refl) in H.
  apply eutt_inv_Ret in H. discriminate H.
Qed.

(** C3 (amended): with a client configured, and for every provider, POST
    /upload sends the existence check, then the bucket creation only when
    the check answered false, then the object write, stopping at the first
    failure; every leaf of the handler is a body, so that the answer is
    HTTP 200 on every branch; a failed step yields success false with
    "Failed to check bucket existence: <err>", "Failed to create bucket:
    <err>" or "Failed to upload file: <err>", where <err> is the
    provider's error text; and when no step fails success is true. *)
Theorem upload_steps_in_order
        {W : Type} (server : forall T, minioE T -> W -> W * T)
        (p : Process) (c : MinioClient) (input : FileUploadRequest)
        (w : W) (tr : list call) :
  minioClient p = Some c ->
  let failed (msg : string) : handlerResult FileUploadResponse :=
    inr (mkFileUploadResponse false msg) in
  let checked := server _ (existsCall c input) w in
  let made := server _ (makeCall c input) (fst checked) in
  let written (w0 : W) := server _ (putCall c input) w0 in
  let sent (log : list call) (w' : W) (r : handlerResult FileUploadResponse) :=
    run server (uploadHandler p input) w tr ≈ Ret ((w', tr ++ log), r) in
  (forall r, Leaf r (uploadHandler p input) -> httpStatus r = 200%Z)
  /\ (forall err, snd checked = inl err ->
        sent [callOf (existsCall c input)] (fst checked)
             (failed ("Failed to check bucket existence: " ++ err)%string))
  /\ (forall err, snd checked = inr false -> snd made = Some err ->
        sent [callOf (existsCall c input); callOf (makeCall c input)] (fst made)
             (failed ("Failed to create bucket: " ++ err)%string))
  /\ (forall err, snd checked = inr true ->
        snd (written (fst checked)) = inl err ->
        sent [callOf (existsCall c input); callOf (putCall c input)]
             (fst (written (fst checked)))
             (failed ("Failed to upload file: " ++ err)%string))
  /\ (forall err, snd checked = inr false -> snd made = None ->
        snd (written (fst made)) = inl err ->
        sent [callOf (existsCall c input); callOf (makeCall c input);
              callOf (putCall c input)]
             (fst (written (fst made)))
             (failed ("Failed to upload file: " ++ err)%string))
  /\ (snd checked = inr true -> snd (written (fst checked)) = inr tt ->
      exists body,
        sent [callOf (existsCall c input); callOf (putCall c input)]
             (fst (written (fst checked))) (inr body)
        /\ Success body = true)
  /\ (snd checked = inr false -> snd made = None ->
      snd (written (fst made)) = inr tt ->
      exists body,
        sent [callOf (existsCall c input); callOf (makeCall c input);
              callOf (putCall c input)]
             (fst (written (fst made))) (inr body)
        /\ Success body = true).
Proof.
  intros Hc failed checked made written sent.
  subst failed checked made written sent. cbv beta.
  split; [|split; [|split; [|split; [|split; [|split]]]]].
  - intros r Hl.
    destruct (uploadHandler_leaf_body p c input Hc r Hl) as [body ->].
    reflexivity.
  - intros err He.
    apply (upload_run_check_failed server p c input Hc w tr err He).
  - intros err He Hm.
    rewrite (upload_run_create_failed server p c input Hc w tr err He Hm).
    rewrite <- app_assoc. reflexivity.
  - intros err He Hw.
    rewrite (upload_run_bucket_exists server p c input Hc w tr He).
    rewrite uploadObject_run. plain_results.
    rewrite Hw, <- app_assoc. reflexivity.
  - intros err He Hm Hw.
    rewrite (upload_run_created server p c input Hc w tr He Hm).
    rewrite uploadObject_run. plain_results.
    rewrite Hw, <- !app_assoc. reflexivity.
  - intros He Hw. eexists. split.
    + rewrite (upload_run_bucket_exists server p c input Hc w tr He).
      rewrite uploadObject_run. plain_results.
      rewrite Hw, <- app_assoc. reflexivity.
    + reflexivity.
  - intros He Hm Hw. eexists. split.
    + rewrite (upload_run_created server p c input Hc w tr He Hm).
      rewrite uploadObject_run. plain_results.
      rewrite Hw, <- !app_assoc. reflexivity.
    + reflexivity.
Qed.

Lemma upload_steps_in_order_witness :
  minioClient withStorage = Some testClient
  /\ run minio_down (uploadHandler withStorage helloUpload) tt []
     ≈ Ret ((tt, [callOf (existsCall testClient helloUpload)]),
            inr (mkFileUploadResponse false
                   "Failed to check bucket existence: connection refused")).
Proof.
  split; [reflexivity|].
  destruct (upload_steps_in_order minio_down withStorage testClient helloUpload
              tt [] eq_refl) as [_ [Hcheck _]].
  apply (Hcheck "connection refused"). reflexivity.
Defined.

(** C7: when every step the handler takes succeeds (the bucket exists or
    is created, and the object is written), POST /upload answers HTTP 200
    with success true and the message "File <file_name> uploaded
    successfully to bucket <bucket_name>". *)
Theorem upload_success
        {W : Type} (server : forall T, minioE T -> W -> W * T)
        (p : Process) (c : MinioClient) (input : FileUploadRequest)
        (w : W) (tr : list call) (present : bool) :
  minioClient p = Some c ->
  let checked := server _ (existsCall c input) w in
  let made := server _ (makeCall c input) (fst checked) in
  let w2 := if present then fst checked else fst made in
  let body :=
    mkFileUploadResponse true
      ("File " ++ FileName input ++ " uploaded successfully to bucket "
       ++ BucketName input) in
  snd checked = inr present ->
  (present = false -> snd made = None) ->
  snd (server _ (putCall c input) w2) = inr tt ->
  run server (uploadHandler p input) w tr
  ≈ Ret ((fst (server _ (putCall c input) w2),
          tr ++ [callOf (existsCall c input)]
             ++ (if present then [] else [callOf (makeCall c input)])
             ++ [callOf (putCall c input)]),
         inr body)
  /\ httpStatus (@inr ErrorModel FileUploadResponse body) = 200%Z.
Proof.
  intros Hc checked made w2 body He Hm Hw.
  subst checked made w2 body. split; [|reflexivity].
  destruct present.
  - rewrite (upload_run_bucket_exists server p c input Hc w tr He).
    rewrite uploadObject_run. plain_results.
    rewrite Hw, <- app_assoc. reflexivity.
  - specialize (Hm eq_refl).
    rewrite (upload_run_created server p c input Hc w tr He Hm).
    rewrite uploadObject_run. plain_results.
    rewrite Hw, <- !app_assoc. reflexivity.
Qed.

Lemma upload_success_witness :
  run minio_memory (uploadHandler withStorage helloUpload) emptyStore []
  ≈ Ret ((mkStore ["test"] [("test", "hello.txt", "Hello World!")],
          [callOf (existsCall testClient helloUpload);
           callOf (makeCall testClient helloUpload);
           callOf (putCall testClient helloUpload)]),
         inr (mkFileUploadResponse true
                "File hello.txt uploaded successfully to bucket test")).
Proof.
  apply (upload_success minio_memory withStorage testClient helloUpload
           emptyStore [] false eq_refl eq_refl (fun _ => eq_refl) eq_refl).
Defined.

(** With the bucket present the handler sends the check and the write,
    and answers according to the write. *)
Lemma upload_run_existing
      {W : Type} (server : forall T, minioE T -> W -> W * T)
      (p : Process) (c : MinioClient) (input : FileUploadRequest)
      (w : W) (tr : list call) :
  minioClient p = Some c ->
  snd (server _ (existsCall c input) w) = inr true ->
  run server (uploadHandler p input) w tr
  ≈ Ret ((fst (server _ (putCall c input) (fst (server _ (existsCall c input) w))),
          tr ++ [callOf (existsCall c input); callOf (putCall c input)]),
         inr match snd (server _ (putCall c input)
                               (fst (server _ (existsCall c input) w))) with
             | inl err =>
                 mkFileUploadResponse false ("Failed to upload file: " ++ err)
             | inr _ =>
                 mkFileUploadResponse true
                   ("File " ++ FileName input
                    ++ " uploaded successfully to bucket " ++ BucketName input)
             end).
Proof.
  intros Hc He.
  rewrite (upload_run_bucket_exists server p c input Hc w tr He).
  rewrite uploadObject_run, <- app_assoc. reflexivity.
Qed.

(** C8: when the existence check answers true, POST /upload sends no
    bucket creation, whatever the write then does.  Hence, against a
    provider on which the bucket keeps existing and the write keeps
    succeeding, any number of identical requests all succeed and no
    bucket creation is ever sent. *)
Theorem upload_existing_bucket_skips_creation
        {W : Type} (server : forall T, minioE T -> W -> W * T)
        (Inv : W -> Prop)
        (p : Process) (c : MinioClient) (input : FileUploadRequest) :
  minioClient p = Some c ->
  let body :=
    mkFileUploadResponse true
      ("File " ++ FileName input ++ " uploaded successfully to bucket "
       ++ BucketName input) in
  (forall (w : W) (tr : list call),
      snd (server _ (existsCall c input) w) = inr true ->
      exists (w' : W) (log : list call) (r : handlerResult FileUploadResponse),
        run server (uploadHandler p input) w tr ≈ Ret ((w', tr ++ log), r)
        /\ existsb isMakeBucket log = false)
  /\ ((forall w, Inv w ->
         snd (server _ (existsCall c input) w) = inr true
         /\ Inv (fst (server _ (existsCall c input) w))) ->
      (forall w, Inv w ->
         snd (server _ (putCall c input) w) = inr tt
         /\ Inv (fst (server _ (putCall c input) w))) ->
      forall (n : nat) (w : W) (tr : list call),
        Inv w ->
        exists (w' : W) (log : list call),
          run server (uploadTimes n p input) w tr
          ≈ Ret ((w', tr ++ log), repeat (inr body) n)
          /\ existsb isMakeBucket log = false
          /\ Inv w').
Proof.
  intros Hc body. split.
  - intros w tr He. eexists. eexists. eexists. split.
    + apply (upload_run_existing server p c input w tr Hc He).
    + reflexivity.
  - intros Hex Hput n. induction n as [|n IH]; intros w tr Hw.
    + exists w, []. split; [|split; [reflexivity | exact Hw]].
      cbn. rewrite app_nil_r. apply run_ret.
    + destruct (Hex w Hw) as [He Hw1].
      destruct (Hput _ Hw1) as [Hp Hw2].
      destruct (IH _ (tr ++ [callOf (existsCall c input);
                             callOf (putCall c input)]) Hw2)
        as [w' [log [Hrun [Hlog Hw']]]].
      exists w', ([callOf (existsCall c input); callOf (putCall c input)] ++ log).
      split; [|split; [exact Hlog | exact Hw']].
      cbn [uploadTimes repeat].
      pose proof (upload_run_existing server p c input w tr Hc He) as H1.
      plain_results. rewrite Hp in H1.
      rewrite (run_bind server _ _ _ _ _ _ _ H1).
      rewrite (run_bind server _ _ _ _ _ _ _ Hrun).
      rewrite app_assoc. apply run_ret.
Qed.

Lemma upload_existing_bucket_skips_creation_witness :
  exists (w' : Store) (log : list call),
    run minio_memory (uploadTimes 2 withStorage helloUpload)
        (mkStore ["test"] []) []
    ≈ Ret ((w', [] ++ log),
           repeat (inr (mkFileUploadResponse true
                          "File hello.txt uploaded successfully to bucket test")) 2)
    /\ existsb isMakeBucket log = false
    /\ hasBucket "test" w' = true.
Proof.
  refine (proj2 (upload_existing_bucket_skips_creation
                   minio_memory (fun s => hasBucket "test" s = true)
                   withStorage testClient helloUpload eq_refl)
                _ _ 2 (mkStore ["test"] []) [] eq_refl).
  - intros w Hw. cbn. rewrite Hw. split; reflexivity.
  - intros w Hw. cbn. rewrite Hw. split; [reflexivity | exact Hw].
Defined.

(** ** GET /health *)

(** C4 (as stated in the specification) does not hold: the body has no
    [completion] or [storage] entry under [services] and no
    [storage_endpoint] entry under [config]. *)
Lemma health_spec_keys_absent :
  ~ (exists (body : list (string * jsonValue))
            (services : list (string * bool)) (cfg : list (string * string)),
        @healthHandler void1 process0 ≈ Ret (inr body)
        /\ assoc "services" body = Some (JBoolMap services)
        /\ assoc "config" body = Some (JStringMap cfg)
        /\ assoc "completion" services = Some (notNil (openaiClient process0))
        /\ assoc "storage" services = Some (notNil (minioClient process0))
        /\ assoc "port" cfg = Some (Port (config process0))
        /\ assoc "storage_endpoint" cfg = Some (MinIOURL (config process0))).
Proof.
  intros [body [services [cfg [H [Hs [_ [Hc _]]]]]]].
  unfold healthHandler in H. apply eutt_inv_Ret in H.
  inversion H; subst body. cbn in Hs. inversion Hs; subst services.
  cbn in Hc. discriminate Hc.
Qed.

(** C4 (amended): GET /health takes no input and sends nothing to either
    provider; it answers HTTP 200 with a body of exactly three entries:
    [status] is "healthy" whatever the state, [services] maps [openai] and
    [minio] to whether the respective client is non-nil, and [config] maps
    [port] and [minio_url] to the values of the current [config]. *)
Theorem health_report (E : Type -> Type) (p : Process) :
  exists body : list (string * jsonValue),
    @healthHandler E p ≈ Ret (inr body)
    /\ httpStatus (@inr ErrorModel _ body) = 200%Z
    /\ List.map fst body = ["status"; "services"; "config"]
    /\ assoc "status" body = Some (JString "healthy")
    /\ assoc "services" body
       = Some (JBoolMap [("openai", notNil (openaiClient p));
                         ("minio", notNil (minioClient p))])
    /\ assoc "config" body
       = Some (JStringMap [("port", Port (config p));
                           ("minio_url", MinIOURL (config p))])
    /\ forall (W : Type) (server : forall T, E T -> W -> W * T)
              (w : W) (tr : list call),
         run server (healthHandler p) w tr ≈ Ret ((w, tr), inr body).
Proof.
  eexists. split; [unfold healthHandler; reflexivity|].
  repeat (split; [reflexivity|]).
  intros W server w tr. apply run_ret.
Qed.

(** ** Configuration loading *)

Module viperFacts.
Import viper.

(** Decoding reads, for a known key, what [find] answers. *)
Lemma lookup_settings (g : string -> option string) (k : string)
      (ks : list string) :
  lookup k (flat_map (fun k' => match g k' with
                                | Some val => [(k', val)]
                                | None => []
                                end) ks)
  = if existsb (String.eqb k) ks then g k else None.
Proof.
  induction ks as [|k' ks IH]; [reflexivity|].
  cbn [flat_map existsb].
  destruct (String.eqb k k') eqn:Hk.
  - apply String.eqb_eq in Hk. subst k'. cbn [orb].
    destruct (g k) as [val|] eqn:Hg.
    + cbn. rewrite String.eqb_refl. reflexivity.
    + cbn [app]. rewrite IH. destruct (existsb _ ks); reflexivity.
  - cbn [orb]. destruct (g k') as [val|].
    + cbn. rewrite Hk. exact IH.
    + cbn [app]. exact IH.
Qed.

Lemma field_known (v : Viper) (env : environ) (k old : string) :
  existsb (String.eqb k) (AllKeys v) = true ->
  field k (AllSettings v env) old
  = match find v env k with Some val => val | None => old end.
Proof.
  intros Hk. unfold field, AllSettings.
  rewrite lookup_settings, Hk. reflexivity.
Qed.

Lemma existsb_app_r (k : string) (l1 l2 : list string) :
  existsb (String.eqb k) l2 = true ->
  existsb (String.eqb k) (l1 ++ l2) = true.
Proof.
  intros H. rewrite existsb_app, H. apply orb_true_r.
Qed.

End viperFacts.

Lemma initConfig_config (fs : viper.filesystem) (env : viper.environ)
      (v : viper.Viper) (p : Process) :
  v = viper.New ->
  config (snd (initConfig fs env (v, p)))
  = viper.Unmarshal
      (configured match fs "config" "yaml" ["."; "./config"] with
                  | inl _ => []
                  | inr m => m
                  end)
      env (config p).
Proof.
  intros ->. unfold initConfig, viper.ReadInConfig. cbn.
  destruct (fs "config" "yaml" ["."; "./config"]); reflexivity.
Qed.

Lemma configured_port (file : viper.settings) (env : viper.environ) (c : Config) :
  Port (viper.Unmarshal (configured file) env c)
  = match envValue env "APP_PORT" with
    | Some val => val
    | None => match viper.lookup "port" file with
              | Some val => val
              | None => "8080"
              end
    end.
Proof.
  unfold viper.Unmarshal. cbn [Port].
  rewrite viperFacts.field_known
    by (apply viperFacts.existsb_app_r; reflexivity).
  unfold viper.find, viper.getEnv.
  replace (viper.mergeWithEnvPrefix (configured file) "port")
    with "APP_PORT" by (vm_compute; reflexivity).
  cbn [configured viper.automaticEnvApplied viper.fileConfig viper.defaults
       viper.envKeyReplacer].
  change (strings_Replace "." "_" "APP_PORT") with "APP_PORT".
  unfold envValue.
  destruct (env "APP_PORT") as [val|]; [destruct (String.eqb val EmptyString)|];
    try reflexivity;
    destruct (viper.lookup "port" file); reflexivity.
Qed.

Lemma configured_minio_url (file : viper.settings) (env : viper.environ)
      (c : Config) :
  MinIOURL (viper.Unmarshal (configured file) env c)
  = match envValue env "APP_MINIO_URL" with
    | Some val => val
    | None => match viper.lookup "minio_url" file with
              | Some val => val
              | None => "localhost:9000"
              end
    end.
Proof.
  unfold viper.Unmarshal. cbn [MinIOURL].
  rewrite viperFacts.field_known
    by (apply viperFacts.existsb_app_r; reflexivity).
  unfold viper.find, viper.getEnv.
  replace (viper.mergeWithEnvPrefix (configured file) "minio_url")
    with "APP_MINIO_URL" by (vm_compute; reflexivity).
  cbn [configured viper.automaticEnvApplied viper.fileConfig viper.defaults
       viper.envKeyReplacer].
  change (strings_Replace "." "_" "APP_MINIO_URL") with "APP_MINIO_URL".
  unfold envValue.
  destruct (env "APP_MINIO_URL") as [val|]; [destruct (String.eqb val EmptyString)|];
    try reflexivity;
    destruct (viper.lookup "minio_url" file); reflexivity.
Qed.

(** C9: [initConfig] on a fresh viper instance layers defaults, the
    optional file and the [APP_]-prefixed environment, the environment
    first: the port is "8080" and the MinIO URL "localhost:9000" when
    neither the file nor the environment sets them; a value in the file
    replaces the default; and a non-empty environment variable replaces
    both, so that [APP_PORT=9090] over a file value of "8080" gives
    [config.Port = "9090"]. *)
Theorem config_layering (fs : viper.filesystem) (env : viper.environ)
        (p : Process) :
  let cfg := config (snd (initConfig fs env (viper.New, p))) in
  let file := match fs "config" "yaml" ["."; "./config"] with
              | inl _ => []
              | inr m => m
              end in
  (envValue env "APP_PORT" = None -> viper.lookup "port" file = None ->
   Port cfg = "8080")
  /\ (envValue env "APP_MINIO_URL" = None ->
      viper.lookup "minio_url" file = None ->
      MinIOURL cfg = "localhost:9000")
  /\ (forall val, envValue env "APP_PORT" = None ->
                  viper.lookup "port" file = Some val -> Port cfg = val)
  /\ (forall val, env "APP_PORT" = Some val -> val <> EmptyString ->
                  Port cfg = val)
  /\ (forall val, env "APP_MINIO_URL" = Some val -> val <> EmptyString ->
                  MinIOURL cfg = val).
Proof.
  intros cfg file. subst cfg file.
  rewrite (initConfig_config fs env viper.New p eq_refl).
  rewrite configured_port, configured_minio_url. unfold viper.settings in *.
  split; [|split; [|split; [|split]]].
  - intros He Hf. rewrite He, Hf. reflexivity.
  - intros He Hf. rewrite He, Hf. reflexivity.
  - intros val He Hf. rewrite He, Hf. reflexivity.
  - intros val He Hv. unfold envValue. rewrite He.
    apply String.eqb_neq in Hv. rewrite Hv. reflexivity.
  - intros val He Hv. unfold envValue. rewrite He.
    apply String.eqb_neq in Hv. rewrite Hv. reflexivity.
Qed.

Lemma config_layering_witness :
  Port (config (snd (initConfig fileWithPort8080 envPort9090
                                (viper.New, process0)))) = "9090"
  /\ MinIOURL (config (snd (initConfig fileWithPort8080 envPort9090
                                       (viper.New, process0))))
     = "localhost:9000"
  /\ Port (config (snd (initConfig noFile noEnv (viper.New, process0)))) = "8080".
Proof.
  destruct (config_layering fileWithPort8080 envPort9090 process0)
    as [_ [Hurl [_ [Hport _]]]].
  destruct (config_layering noFile noEnv process0) as [Hdef _].
  split; [|split].
  - apply (Hport "9090"); [reflexivity | discriminate].
  - apply Hurl; reflexivity.
  - apply Hdef; reflexivity.
Defined.

(** The repository's TestInitConfig, on the embedding: defaults first,
    then the two variables of the environment. *)
Example initConfig_as_tested :
  config (snd (initConfig noFile noEnv (viper.New, process0)))
  = mkConfig "8080" EmptyString "localhost:9000" EmptyString EmptyString
  /\ config (snd (initConfig noFile testEnv (viper.New, process0)))
     = mkConfig "9090" EmptyString "test.example.com:9000" EmptyString EmptyString.
Proof.
  split; vm_compute; reflexivity.
Qed.

(** Without a file and without environment the process starts with both
    clients nil, and says so in its log. *)
Example startup_without_configuration :
  startup minio_New_ok noFile noEnv
  = mkProcess
      (mkConfig "8080" EmptyString "localhost:9000" EmptyString EmptyString)
      None None
      ["Config file not found, using defaults and environment variables: Config File config Not Found in [. ./config]";
       "Configuration loaded: Port=8080, MinIO URL=localhost:9000";
       "OpenAI API key not provided, chat functionality will be disabled";
       "MinIO credentials not provided, file upload functionality will be disabled"].
Proof.
  vm_compute. reflexivity.
Qed.

(** ** Start-up failure of the storage client *)

Lemma uploadTimes_nil_run
      {W : Type} (server : forall T, minioE T -> W -> W * T)
      (p : Process) (input : FileUploadRequest) (n : nat)
      (w : W) (tr : list call) :
  minioClient p = None ->
  run server (uploadTimes n p input) w tr
  ≈ Ret ((w, tr),
         repeat (inr (mkFileUploadResponse false "MinIO client not configured")) n).
Proof.
  intros Hp. induction n as [|n IH]; cbn [uploadTimes repeat].
  - apply run_ret.
  - assert (H1 : run server (uploadHandler p input) w tr
                 ≈ Ret ((w, tr),
                        inr (mkFileUploadResponse false
                               "MinIO client not configured"))).
    { apply run_silent. rewrite (uploadHandler_nil p input Hp). reflexivity. }
    rewrite (run_bind server _ _ _ _ _ _ _ H1).
    rewrite (run_bind server _ _ _ _ _ _ _ IH). apply run_ret.
Qed.

(** C10: when both storage credentials are non-empty and [minio.New]
    fails, [initClients] still returns (the failure is logged, the process
    goes on) with [minioClient] nil; from then on every POST /upload gets
    the "MinIO client not configured" answer with success false and sends
    nothing, and GET /health reports [minio] as false. *)
Theorem storage_client_construction_failure
        (minio_New : string -> MinioOptions -> result MinioClient)
        (p0 : Process) (err : error) :
  MinIOKey (config p0) <> EmptyString ->
  MinIOSecret (config p0) <> EmptyString ->
  minio_New (MinIOURL (config p0))
            (mkMinioOptions
               (credentials_NewStaticV4 (MinIOKey (config p0))
                                        (MinIOSecret (config p0)) EmptyString)
               false) = inl err ->
  let p := initClients minio_New p0 in
  let body := mkFileUploadResponse false "MinIO client not configured" in
  minioClient p = None
  /\ config p = config p0
  /\ (forall (input : FileUploadRequest) (n : nat) (W : Type)
             (server : forall T, minioE T -> W -> W * T)
             (w : W) (tr : list call),
        run server (uploadTimes n p input) w tr
        ≈ Ret ((w, tr), repeat (inr body) n))
  /\ (forall input : FileUploadRequest,
        uploadHandler p input ≈ Ret (inr body)
        /\ httpStatus (@inr ErrorModel FileUploadResponse body) = 200%Z)
  /\ exists (health : list (string * jsonValue)) (services : list (string * bool)),
       @healthHandler void1 p ≈ Ret (inr health)
       /\ assoc "services" health = Some (JBoolMap services)
       /\ assoc "minio" services = Some false.
Proof.
  intros Hk Hs Hn p body.
  destruct (initClients_minio_failed minio_New p0 err Hk Hs Hn) as [Hnil _].
  fold p in Hnil.
  split; [exact Hnil|]. split; [apply initClients_config|]. split; [|split].
  - intros input n W server w tr. apply uploadTimes_nil_run. exact Hnil.
  - intros input. split; [|reflexivity].
    rewrite (uploadHandler_nil p input Hnil). reflexivity.
  - eexists. eexists. split; [unfold healthHandler; reflexivity|].
    split; [reflexivity|]. cbn. rewrite Hnil. reflexivity.
Qed.

Lemma storage_client_construction_failure_witness :
  MinIOKey fullConfig <> EmptyString
  /\ MinIOSecret fullConfig <> EmptyString
  /\ minioClient (initClients minio_New_fail (setConfig fullConfig process0)) = None
  /\ run minio_memory
         (uploadTimes 2 (initClients minio_New_fail (setConfig fullConfig process0))
                      helloUpload) emptyStore []
     ≈ Ret ((emptyStore, []),
            repeat (inr (mkFileUploadResponse false "MinIO client not configured")) 2).
Proof.
  assert (Hk : MinIOKey fullConfig <> EmptyString) by discriminate.
  assert (Hs : MinIOSecret fullConfig <> EmptyString) by discriminate.
  split; [exact Hk|]. split; [exact Hs|].
  destruct (storage_client_construction_failure
              minio_New_fail (setConfig fullConfig process0)
              "Endpoint url cannot have fully qualified paths."
              Hk Hs eq_refl) as [Hnil [_ [Hrun _]]].
  split; [exact Hnil|].
  apply (Hrun helloUpload 2 Store minio_memory emptyStore []).
Defined.

(* ===================================================================== *)
(** * Further facts about start-up and the handlers *)
(* ===================================================================== *)

(** ** [initClients] (main.go, lines 83-107) *)

(** The chat client depends on the API key alone: whatever the storage
    credentials are and whatever [minio.New] answers, after [initClients]
    the client is the one built from the key when the key is not empty,
    and is left as it was when the key is empty. *)
Lemma initClients_openai_by_key_alone
        (minio_New : string -> MinioOptions -> result MinioClient)
        (p : Process) :
  openaiClient (initClients minio_New p)
  = if String.eqb (OpenAIKey (config p)) EmptyString
    then openaiClient p
    else Some (mkOpenAIClient (OpenAIKey (config p))).
Proof.
  unfold initClients.
  destruct (OpenAIKey (config p) =? EmptyString)%string; cbn;
    destruct (negb (MinIOKey (config p) =? EmptyString)%string
              && negb (MinIOSecret (config p) =? EmptyString)%string);
    try destruct (minio_New _ _); reflexivity.
Qed.

Lemma initClients_minio_built
      (minio_New : string -> MinioOptions -> result MinioClient)
      (p : Process) (c : MinioClient) :
  MinIOKey (config p) <> EmptyString ->
  MinIOSecret (config p) <> EmptyString ->
  minio_New (MinIOURL (config p)) (minioOptionsOf (config p)) = inr c ->
  minioClient (initClients minio_New p) = Some c.
Proof.
  intros Hk Hs Hn. unfold initClients. unfold minioOptionsOf in Hn.
  apply String.eqb_neq in Hk. apply String.eqb_neq in Hs.
  destruct (OpenAIKey (config p) =? EmptyString)%string; cbn;
    rewrite Hk, Hs; cbn; rewrite Hn; reflexivity.
Qed.

(** X1: starting from a nil storage client, the client is present after
    [initClients] exactly when the access key and the secret are both
    non-empty and [minio.New], called with the configured URL, these two
    as static credentials, an empty session token and [Secure] false,
    returns a client; it is then that client. *)
Theorem initClients_minio_present_iff
        (minio_New : string -> MinioOptions -> result MinioClient)
        (p : Process) (c : MinioClient) :
  minioClient p = None ->
  (minioClient (initClients minio_New p) = Some c
   <-> MinIOKey (config p) <> EmptyString
       /\ MinIOSecret (config p) <> EmptyString
       /\ minio_New (MinIOURL (config p)) (minioOptionsOf (config p)) = inr c).
Proof.
  intros Hnil. split.
  - intros Hc.
    destruct (String.eqb (MinIOKey (config p)) EmptyString) eqn:Hk.
    { apply String.eqb_eq in Hk.
      rewrite (initClients_minio_no_credentials minio_New p (or_introl Hk)) in Hc.
      congruence. }
    destruct (String.eqb (MinIOSecret (config p)) EmptyString) eqn:Hs.
    { apply String.eqb_eq in Hs.
      rewrite (initClients_minio_no_credentials minio_New p (or_intror Hs)) in Hc.
      congruence. }
    apply String.eqb_neq in Hk. apply String.eqb_neq in Hs.
    split; [exact Hk|]. split; [exact Hs|].
    destruct (minio_New (MinIOURL (config p)) (minioOptionsOf (config p)))
      as [err | c'] eqn:Hn.
    + destruct (initClients_minio_failed minio_New p err Hk Hs Hn) as [Hf _].
      congruence.
    + rewrite (initClients_minio_built minio_New p c' Hk Hs Hn) in Hc.
      congruence.
  - intros [Hk [Hs Hn]]. apply initClients_minio_built; assumption.
Qed.

Lemma initClients_minio_present_iff_witness :
  minioClient (initClients minio_New_ok (setConfig fullConfig process0))
  = Some (mkMinioClient "localhost:9000"
            (mkMinioOptions
               (mkCredentials "test-access-key" "test-secret-key" EmptyString)
               false)).
Proof.
  apply (initClients_minio_present_iff minio_New_ok
           (setConfig fullConfig process0) _ eq_refl).
  split; [discriminate|]. split; [discriminate | reflexivity].
Defined.

(** X2: [initClients] never touches the configuration and never drops a
    log line: it appends exactly two lines, the first about the chat
    client and the second about the storage client. *)
Theorem initClients_logs_two_lines
        (minio_New : string -> MinioOptions -> result MinioClient)
        (p : Process) :
  config (initClients minio_New p) = config p
  /\ exists l1 l2 : string,
       logged (initClients minio_New p) = logged p ++ [l1; l2]
       /\ (l1 = "OpenAI client initialized"
           \/ l1 = "OpenAI API key not provided, chat functionality will be disabled")
       /\ (l2 = "MinIO client initialized"
           \/ l2 = "MinIO credentials not provided, file upload functionality will be disabled"
           \/ exists err,
                minio_New (MinIOURL (config p)) (minioOptionsOf (config p))
                = inl err
                /\ l2 = ("Failed to initialize MinIO client: " ++ err)%string).
Proof.
  split; [apply initClients_config|].
  unfold initClients, minioOptionsOf.
  destruct (negb (OpenAIKey (config p) =? EmptyString)%string); cbn;
    (destruct (negb (MinIOKey (config p) =? EmptyString)%string
               && negb (MinIOSecret (config p) =? EmptyString)%string); cbn;
     [destruct (minio_New _ _) as [err | c] eqn:Hn; cbn|]);
    eexists; eexists; (split; [rewrite <- app_assoc; reflexivity|]);
    (split; [auto|]); eauto.
Qed.

(** ** [initConfig] (main.go, lines 54-81) *)

Lemma keys_lookup (k : string) (m : viper.settings) :
  existsb (String.eqb k) (viper.keys m)
  = match viper.lookup k m with Some _ => true | None => false end.
Proof.
  induction m as [|[k' v] m IH]; [reflexivity|].
  cbn. destruct (String.eqb k k'); [reflexivity | exact IH].
Qed.

Lemma initConfig_config_layer (fs : viper.filesystem) (env : viper.environ)
      (p : Process) :
  config (snd (initConfig fs env (viper.New, p)))
  = viper.Unmarshal (configured (fileLayer fs)) env (config p).
Proof.
  rewrite (initConfig_config fs env viper.New p eq_refl). reflexivity.
Qed.

(** A key the file holds is decoded with the environment first. *)
Lemma configured_field_in_file (file : viper.settings) (env : viper.environ)
      (k envName val old : string) :
  strings_Replace "." "_" (strings_ToUpper ("APP_" ++ k)) = envName ->
  viper.lookup k file = Some val ->
  viper.field k (viper.AllSettings (configured file) env) old
  = match envValue env envName with Some v => v | None => val end.
Proof.
  intros Hn Hf. unfold viper.field, viper.AllSettings.
  rewrite viperFacts.lookup_settings.
  unfold viper.AllKeys. rewrite existsb_app, keys_lookup.
  cbn [configured viper.fileConfig]. rewrite Hf. cbn [orb].
  unfold viper.find, viper.getEnv, viper.mergeWithEnvPrefix.
  cbn [configured viper.automaticEnvApplied viper.fileConfig viper.defaults
       viper.envKeyReplacer viper.envPrefix].
  change (("APP" =? EmptyString)%string) with false. cbv iota.
  change ("APP" ++ "_" ++ k)%string with ("APP_" ++ k)%string.
  rewrite Hn, Hf. unfold envValue.
  destruct (env envName) as [v|]; [destruct (String.eqb v EmptyString)|];
    reflexivity.
Qed.

(** A key that neither the file nor a default makes known leaves its
    field alone. *)
Lemma configured_field_unknown (file : viper.settings) (env : viper.environ)
      (k old : string) :
  viper.lookup k file = None ->
  existsb (String.eqb k) ["minio_url"; "port"] = false ->
  viper.field k (viper.AllSettings (configured file) env) old = old.
Proof.
  intros Hf Hd. unfold viper.field, viper.AllSettings.
  rewrite viperFacts.lookup_settings.
  unfold viper.AllKeys. rewrite existsb_app, keys_lookup.
  cbn [configured viper.fileConfig viper.defaults viper.keys List.map fst].
  rewrite Hf, Hd. reflexivity.
Qed.

(** X3: the three credentials are read from the configuration file under
    the keys [openai_key], [minio_key] and [minio_secret], each into its
    own field, and a non-empty [APP_OPENAI_KEY], [APP_MINIO_KEY] or
    [APP_MINIO_SECRET] replaces the value of the file. *)
Theorem initConfig_credentials_from_file
        (fs : viper.filesystem) (env : viper.environ) (p : Process) :
  let cfg := config (snd (initConfig fs env (viper.New, p))) in
  let decoded (key envName got : string) :=
    forall val, viper.lookup key (fileLayer fs) = Some val ->
                got = match envValue env envName with
                      | Some v => v
                      | None => val
                      end in
  decoded "openai_key" "APP_OPENAI_KEY" (OpenAIKey cfg)
  /\ decoded "minio_key" "APP_MINIO_KEY" (MinIOKey cfg)
  /\ decoded "minio_secret" "APP_MINIO_SECRET" (MinIOSecret cfg).
Proof.
  intros cfg decoded. subst cfg decoded. cbv beta.
  rewrite initConfig_config_layer. unfold viper.Unmarshal.
  cbn [OpenAIKey MinIOKey MinIOSecret].
  split; [|split]; intros val Hf;
    apply configured_field_in_file; (reflexivity || exact Hf).
Qed.

Lemma initConfig_credentials_from_file_witness :
  OpenAIKey (config (snd (initConfig fileWithCredentials envOpenAIKey
                                     (viper.New, process0)))) = "sk-env"
  /\ MinIOSecret (config (snd (initConfig fileWithCredentials envOpenAIKey
                                          (viper.New, process0))))
     = "file-secret-key".
Proof.
  destruct (initConfig_credentials_from_file fileWithCredentials envOpenAIKey
              process0) as [Hkey [_ Hsecret]].
  split.
  - apply (Hkey "sk-file"). reflexivity.
  - apply (Hsecret "file-secret-key"). reflexivity.
Defined.

(** X4: a credential that the file does not hold and the environment does
    not set is left as it was: [initConfig] does not reset the field, and
    at process start it stays empty. *)
Theorem initConfig_missing_credential_kept
        (fs : viper.filesystem) (env : viper.environ) (p : Process) :
  let cfg := config (snd (initConfig fs env (viper.New, p))) in
  let kept (key envName got old : string) :=
    viper.lookup key (fileLayer fs) = None ->
    envValue env envName = None ->
    got = old in
  kept "openai_key" "APP_OPENAI_KEY" (OpenAIKey cfg) (OpenAIKey (config p))
  /\ kept "minio_key" "APP_MINIO_KEY" (MinIOKey cfg) (MinIOKey (config p))
  /\ kept "minio_secret" "APP_MINIO_SECRET" (MinIOSecret cfg)
          (MinIOSecret (config p)).
Proof.
  intros cfg kept. subst cfg kept. cbv beta.
  rewrite initConfig_config_layer. unfold viper.Unmarshal.
  cbn [OpenAIKey MinIOKey MinIOSecret].
  split; [|split]; intros Hf _;
    apply configured_field_unknown; (reflexivity || exact Hf).
Qed.

Lemma initConfig_missing_credential_kept_witness :
  OpenAIKey (config (snd (initConfig noFile noEnv (viper.New, process0))))
  = EmptyString
  /\ MinIOKey (config (snd (initConfig noFile noEnv
                                       (viper.New, setConfig fullConfig process0))))
     = "test-access-key".
Proof.
  destruct (initConfig_missing_credential_kept noFile noEnv process0)
    as [Hkey _].
  destruct (initConfig_missing_credential_kept noFile noEnv
              (setConfig fullConfig process0)) as [_ [Hmk _]].
  split.
  - apply Hkey; reflexivity.
  - apply Hmk; reflexivity.
Defined.

(** X5: a configuration file that cannot be read is not fatal, whatever
    the error is: [initConfig] ends with the configuration an empty file
    would give, and logs the error under "Config file not found" followed
    by the "Configuration loaded" line. *)
Theorem initConfig_read_error_not_fatal
        (fs : viper.filesystem) (env : viper.environ) (p : Process)
        (err : error) :
  fs "config" "yaml" ["."; "./config"] = inl err ->
  let p' := snd (initConfig fs env (viper.New, p)) in
  config p' = config (snd (initConfig (fun _ _ _ => inr []) env (viper.New, p)))
  /\ logged p'
     = logged p
       ++ [("Config file not found, using defaults and environment variables: "
            ++ err)%string;
           ("Configuration loaded: Port=" ++ Port (config p')
            ++ ", MinIO URL=" ++ MinIOURL (config p'))%string]
  /\ openaiClient p' = openaiClient p
  /\ minioClient p' = minioClient p.
Proof.
  intros Hfs p'. subst p'. split.
  - rewrite !initConfig_config_layer. unfold fileLayer. rewrite Hfs. reflexivity.
  - unfold initConfig, viper.ReadInConfig. cbn. rewrite Hfs. cbn.
    rewrite <- app_assoc. repeat split; reflexivity.
Qed.

Lemma initConfig_read_error_not_fatal_witness :
  logged (snd (initConfig brokenFile noEnv (viper.New, process0)))
  = ["Config file not found, using defaults and environment variables: While parsing config: yaml: line 1: did not find expected key";
     "Configuration loaded: Port=8080, MinIO URL=localhost:9000"].
Proof.
  destruct (initConfig_read_error_not_fatal brokenFile noEnv process0
              "While parsing config: yaml: line 1: did not find expected key"
              eq_refl) as [_ [Hlog _]].
  exact Hlog.
Defined.

(** ** [main] (main.go, lines 109-131) *)

(** X6: the address the server listens on is a colon followed by the
    port that the layers give ([APP_PORT] when set and not empty, else the
    file's [port], else 8080); it does not depend on how the clients were
    initialised, and it is the last thing logged before listening. *)
Theorem main_listen_address
        (minio_New : string -> MinioOptions -> result MinioClient)
        (fs : viper.filesystem) (env : viper.environ) :
  let port := match envValue env "APP_PORT" with
              | Some val => val
              | None => match viper.lookup "port" (fileLayer fs) with
                        | Some val => val
                        | None => "8080"
                        end
              end in
  snd (mainUntilListen minio_New fs env) = (":" ++ port)%string
  /\ last (logged (fst (mainUntilListen minio_New fs env))) EmptyString
     = ("Starting server on :" ++ port)%string.
Proof.
  intros port.
  assert (Hp : Port (config (startup minio_New fs env)) = port).
  { unfold startup. rewrite initClients_config, initConfig_config_layer.
    apply configured_port. }
  unfold mainUntilListen, listenAddr. cbn [fst snd logLine logged].
  rewrite Hp. split; [reflexivity|]. apply last_last.
Qed.

(** ** The handlers against every provider *)

(** With a client the chat handler has a leaf that is a 500 error, and
    the upload handler a leaf that reports a failed existence check. *)
Lemma chatHandler_leaf_500 (p : Process) (c : OpenAIClient)
      (input : ChatRequest) (err : error) :
  openaiClient p = Some c ->
  Leaf (inl (huma_Error500InternalServerError
               "Failed to get OpenAI response" [err]))
       (chatHandler p input).
Proof.
  intros Hc. unfold chatHandler. rewrite Hc.
  eapply Leaf_bind with (b := inl err).
  - unfold ITree.trigger. eapply Leaf_Vis. apply Leaf_Ret.
  - apply Leaf_Ret.
Qed.

Lemma uploadHandler_leaf_check_failed (p : Process) (c : MinioClient)
      (input : FileUploadRequest) (err : error) :
  minioClient p = Some c ->
  Leaf (inr (mkFileUploadResponse false
               ("Failed to check bucket existence: " ++ err)))
       (uploadHandler p input).
Proof.
  intros Hc. unfold uploadHandler. rewrite Hc.
  eapply Leaf_bind with (b := inl err).
  - unfold ITree.trigger. eapply Leaf_Vis. apply Leaf_Ret.
  - apply Leaf_Ret.
Qed.

(** X7: what GET /health reports is what the other two endpoints do.
    [services.openai] is false exactly when POST /chat is refused with
    the 400 "OpenAI client not configured", and [services.minio] is false
    exactly when POST /upload gives the "MinIO client not configured"
    body, for every request. *)
Theorem health_flags_match_endpoints (p : Process) :
  exists (health : list (string * jsonValue)) (services : list (string * bool)),
    @healthHandler void1 p ≈ Ret (inr health)
    /\ assoc "services" health = Some (JBoolMap services)
    /\ (assoc "openai" services = Some false
        <-> forall input : ChatRequest,
              chatHandler p input
              ≈ Ret (inl (huma_Error400BadRequest
                            "OpenAI client not configured" [])))
    /\ (assoc "minio" services = Some false
        <-> forall input : FileUploadRequest,
              uploadHandler p input
              ≈ Ret (inr (mkFileUploadResponse false
                            "MinIO client not configured"))).
Proof.
  eexists. eexists. split; [unfold healthHandler; reflexivity|].
  split; [reflexivity|]. cbn [assoc String.eqb Ascii.eqb Bool.eqb].
  split; split.
  - intros H input. destruct (openaiClient p) eqn:Hc; [discriminate H|].
    rewrite (chatHandler_nil p input Hc). reflexivity.
  - intros H. destruct (openaiClient p) as [c|] eqn:Hc; [|reflexivity].
    exfalso.
    pose proof (chatHandler_leaf_500 p c (mkChatRequest EmptyString)
                  EmptyString Hc) as Hl.
    rewrite (H (mkChatRequest EmptyString)) in Hl.
    apply Leaf_Ret_inv in Hl. discriminate Hl.
  - intros H input. destruct (minioClient p) eqn:Hc; [discriminate H|].
    rewrite (uploadHandler_nil p input Hc). reflexivity.
  - intros H. destruct (minioClient p) as [c|] eqn:Hc; [|reflexivity].
    exfalso.
    pose proof (uploadHandler_leaf_check_failed p c
                  (mkFileUploadRequest EmptyString EmptyString EmptyString)
                  EmptyString Hc) as Hl.
    rewrite (H (mkFileUploadRequest EmptyString EmptyString EmptyString)) in Hl.
    apply Leaf_Ret_inv in Hl. discriminate Hl.
Qed.

(** X8: with a client configured the upload handler returns under every
    provider, always with a body (HTTP 200), after one of four call
    sequences: check; check, create; check, write; check, create, write.
    A creation is sent only after the check answered false, and success
    is reported only when the last call sent is the write. *)
Theorem upload_returns_under_every_provider
        {W : Type} (server : forall T, minioE T -> W -> W * T)
        (p : Process) (c : MinioClient) (input : FileUploadRequest)
        (w : W) (tr : list call) :
  minioClient p = Some c ->
  exists (w' : W) (log : list call) (body : FileUploadResponse),
    run server (uploadHandler p input) w tr ≈ Ret ((w', tr ++ log), inr body)
    /\ In log [[callOf (existsCall c input)];
               [callOf (existsCall c input); callOf (makeCall c input)];
               [callOf (existsCall c input); callOf (putCall c input)];
               [callOf (existsCall c input); callOf (makeCall c input);
                callOf (putCall c input)]]
    /\ (existsb isMakeBucket log = true ->
        snd (server _ (existsCall c input) w) = inr false)
    /\ (Success body = true ->
        last log (callOf (existsCall c input)) = callOf (putCall c input)).
Proof.
  intros Hc. plain_results.
  destruct (snd (server _ (existsCall c input) w)) as [err | present] eqn:He.
  - eexists. eexists. eexists. split.
    + apply (upload_run_check_failed server p c input Hc w tr err He).
    + split; [cbn; auto|]. split; intros H; discriminate H.
  - destruct present.
    + eexists. eexists. eexists. split.
      * apply (upload_run_existing server p c input w tr Hc He).
      * split; [cbn; auto|]. split; [intros H; discriminate H|].
        intros _. reflexivity.
    + destruct (snd (server _ (makeCall c input)
                       (fst (server _ (existsCall c input) w))))
        as [err |] eqn:Hm.
      * eexists. eexists. eexists. split.
        -- rewrite (upload_run_create_failed server p c input Hc w tr err He Hm).
           rewrite <- app_assoc. reflexivity.
        -- split; [cbn; auto|]. split; [intros _; exact He|].
           intros H. discriminate H.
      * eexists. eexists. eexists. split.
        -- rewrite (upload_run_created server p c input Hc w tr He Hm).
           rewrite uploadObject_run, <- !app_assoc. reflexivity.
        -- split; [cbn; auto 6|]. split; [intros _; exact He|].
           intros _. reflexivity.
Qed.

Lemma upload_returns_under_every_provider_witness :
  exists (w' : Store) (log : list call) (body : FileUploadResponse),
    run minio_memory (uploadHandler withStorage helloUpload) emptyStore []
    ≈ Ret ((w', [] ++ log), inr body)
    /\ length log <= 3.
Proof.
  destruct (upload_returns_under_every_provider
              minio_memory withStorage testClient helloUpload emptyStore []
              eq_refl) as [w' [log [body [Hrun [Hlog _]]]]].
  exists w', log, body. split; [exact Hrun|].
  cbn in Hlog. destruct Hlog as [H | [H | [H | [H | []]]]]; subst log; cbn; lia.
Defined.

(** X9: with a client configured the chat handler returns under every
    provider after exactly one completion request, which carries the
    model gpt-3.5-turbo and the input as its only message, in the user
    role; the answer is HTTP 200 or HTTP 500, never 400. *)
Theorem chat_returns_under_every_provider
        {W : Type} (server : forall T, openaiE T -> W -> W * T)
        (p : Process) (c : OpenAIClient) (input : ChatRequest)
        (w : W) (tr : list call) :
  openaiClient p = Some c ->
  exists (w' : W) (r : handlerResult ChatResponse),
    run server (chatHandler p input) w tr
    ≈ Ret ((w',
            tr ++ [callOf (CreateChatCompletion c
                             (mkChatCompletionRequest "gpt-3.5-turbo"
                                [mkChatCompletionMessage "user" (Message input)]))]),
           r)
    /\ (httpStatus r = 200%Z \/ httpStatus r = 500%Z).
Proof.
  intros Hc.
  destruct (snd (server _ (chatCall c input) w)) as [err | resp] eqn:Hr.
  - eexists. eexists. split.
    + rewrite (chatHandler_run server p c input w tr Hc), Hr. apply run_ret.
    + right. reflexivity.
  - eexists. eexists. split.
    + rewrite (chatHandler_run server p c input w tr Hc), Hr. apply run_ret.
    + left. reflexivity.
Qed.

Lemma chat_returns_under_every_provider_witness :
  exists (w' : unit) (r : handlerResult ChatResponse),
    run (openai_answers ["Hi there"; "Hello"])
        (chatHandler (mkProcess zeroConfig (Some (openai_NewClient "sk-test")) None [])
                     (mkChatRequest "Hello!")) tt []
    ≈ Ret ((w',
            [] ++ [callOf (CreateChatCompletion (openai_NewClient "sk-test")
                             (mkChatCompletionRequest "gpt-3.5-turbo"
                                [mkChatCompletionMessage "user" "Hello!"]))]),
           r)
    /\ (httpStatus r = 200%Z \/ httpStatus r = 500%Z).
Proof.
  apply (chat_returns_under_every_provider
           (openai_answers ["Hi there"; "Hello"])
           (mkProcess zeroConfig (Some (openai_NewClient "sk-test")) None [])
           (openai_NewClient "sk-test") (mkChatRequest "Hello!") tt [] eq_refl).
Defined.

(** ** From the configuration sources to the endpoints *)

Lemma initConfig_clients (fs : viper.filesystem) (env : viper.environ)
      (v : viper.Viper) (p : Process) :
  openaiClient (snd (initConfig fs env (v, p))) = openaiClient p
  /\ minioClient (snd (initConfig fs env (v, p))) = minioClient p.
Proof.
  unfold initConfig.
  destruct (viper.ReadInConfig fs _) as [v' [e|]]; split; reflexivity.
Qed.

(** X10: a process started with no API key and no access key, neither in
    the file nor in the environment, runs with both clients nil whatever
    [minio.New] would answer: every POST /chat is refused with the 400
    "OpenAI client not configured" and every POST /upload gets the
    "MinIO client not configured" body. *)
Theorem startup_without_credentials
        (minio_New : string -> MinioOptions -> result MinioClient)
        (fs : viper.filesystem) (env : viper.environ) :
  viper.lookup "openai_key" (fileLayer fs) = None ->
  envValue env "APP_OPENAI_KEY" = None ->
  viper.lookup "minio_key" (fileLayer fs) = None ->
  envValue env "APP_MINIO_KEY" = None ->
  let p := startup minio_New fs env in
  openaiClient p = None
  /\ minioClient p = None
  /\ (forall input : ChatRequest,
        chatHandler p input
        ≈ Ret (inl (huma_Error400BadRequest "OpenAI client not configured" [])))
  /\ (forall input : FileUploadRequest,
        uploadHandler p input
        ≈ Ret (inr (mkFileUploadResponse false "MinIO client not configured"))).
Proof.
  intros Hof _ Hmf _ p.
  set (q := snd (initConfig fs env (viper.New, process0))).
  destruct (initConfig_clients fs env viper.New process0) as [Hqo Hqm].
  fold q in Hqo, Hqm. cbn in Hqo, Hqm.
  assert (Hcfg : config q
                 = viper.Unmarshal (configured (fileLayer fs)) env zeroConfig)
    by apply initConfig_config_layer.
  assert (Hk : OpenAIKey (config q) = EmptyString).
  { rewrite Hcfg. unfold viper.Unmarshal. cbn [OpenAIKey].
    apply configured_field_unknown; [exact Hof | reflexivity]. }
  assert (Hm : MinIOKey (config q) = EmptyString).
  { rewrite Hcfg. unfold viper.Unmarshal. cbn [MinIOKey].
    apply configured_field_unknown; [exact Hmf | reflexivity]. }
  assert (Ho : openaiClient p = None).
  { unfold p, startup. fold q.
    rewrite initClients_openai_no_key; [exact Hqo | exact Hk]. }
  assert (Hs : minioClient p = None).
  { unfold p, startup. fold q.
    rewrite initClients_minio_no_credentials; [exact Hqm | left; exact Hm]. }
  split; [exact Ho|]. split; [exact Hs|]. split.
  - intros input. rewrite (chatHandler_nil p input Ho). reflexivity.
  - intros input. rewrite (uploadHandler_nil p input Hs). reflexivity.
Qed.

Lemma startup_without_credentials_witness :
  openaiClient (startup minio_New_ok noFile testEnv) = None
  /\ minioClient (startup minio_New_ok noFile testEnv) = None.
Proof.
  destruct (startup_without_credentials minio_New_ok noFile testEnv
              eq_refl eq_refl eq_refl eq_refl) as [Ho [Hs _]].
  split; [exact Ho | exact Hs].
Defined.

(** X11: the clients are built from what the file holds.  With a
    non-empty [openai_key], [minio_key] and [minio_secret] in the file and
    none of the three replaced by the environment, the chat client
    carries the file's API key, and the storage client is what [minio.New]
    answers for the layered MinIO URL (localhost:9000 by default), the
    file's key and secret, an empty session token and [Secure] false: the
    client it returns, and nil when it fails. *)
Theorem startup_with_file_credentials
        (minio_New : string -> MinioOptions -> result MinioClient)
        (fs : viper.filesystem) (env : viper.environ)
        (key access secret : string) :
  viper.lookup "openai_key" (fileLayer fs) = Some key ->
  viper.lookup "minio_key" (fileLayer fs) = Some access ->
  viper.lookup "minio_secret" (fileLayer fs) = Some secret ->
  envValue env "APP_OPENAI_KEY" = None ->
  envValue env "APP_MINIO_KEY" = None ->
  envValue env "APP_MINIO_SECRET" = None ->
  key <> EmptyString -> access <> EmptyString -> secret <> EmptyString ->
  let url := match envValue env "APP_MINIO_URL" with
             | Some val => val
             | None => match viper.lookup "minio_url" (fileLayer fs) with
                       | Some val => val
                       | None => "localhost:9000"
                       end
             end in
  let p := startup minio_New fs env in
  openaiClient p = Some (mkOpenAIClient key)
  /\ minioClient p
     = match minio_New url
               (mkMinioOptions (mkCredentials access secret EmptyString) false)
       with
       | inl _ => None
       | inr c => Some c
       end.
Proof.
  intros Hof Hmf Hsf Hoe Hme Hse Hk Ha Hs url p.
  set (q := snd (initConfig fs env (viper.New, process0))).
  assert (Hcfg : config q
                 = viper.Unmarshal (configured (fileLayer fs)) env zeroConfig)
    by apply initConfig_config_layer.
  assert (Hqk : OpenAIKey (config q) = key).
  { rewrite Hcfg. unfold viper.Unmarshal. cbn [OpenAIKey].
    rewrite (configured_field_in_file _ env "openai_key" "APP_OPENAI_KEY" key _
               eq_refl Hof), Hoe. reflexivity. }
  assert (Hqa : MinIOKey (config q) = access).
  { rewrite Hcfg. unfold viper.Unmarshal. cbn [MinIOKey].
    rewrite (configured_field_in_file _ env "minio_key" "APP_MINIO_KEY" access _
               eq_refl Hmf), Hme. reflexivity. }
  assert (Hqs : MinIOSecret (config q) = secret).
  { rewrite Hcfg. unfold viper.Unmarshal. cbn [MinIOSecret].
    rewrite (configured_field_in_file _ env "minio_secret" "APP_MINIO_SECRET"
               secret _ eq_refl Hsf), Hse. reflexivity. }
  assert (Hqu : MinIOURL (config q) = url).
  { rewrite Hcfg. apply configured_minio_url. }
  split.
  - unfold p, startup. fold q.
    rewrite initClients_openai_by_key_alone, Hqk.
    apply String.eqb_neq in Hk. rewrite Hk. reflexivity.
  - unfold p, startup. fold q.
    destruct (minio_New url
                (mkMinioOptions (mkCredentials access secret EmptyString) false))
      as [err | c] eqn:Hn.
    + apply (initClients_minio_failed minio_New q err).
      * rewrite Hqa. exact Ha.
      * rewrite Hqs. exact Hs.
      * rewrite Hqu, Hqa, Hqs. exact Hn.
    + apply (initClients_minio_built minio_New q c).
      * rewrite Hqa. exact Ha.
      * rewrite Hqs. exact Hs.
      * unfold minioOptionsOf. rewrite Hqu, Hqa, Hqs. exact Hn.
Qed.

Lemma startup_with_file_credentials_witness :
  openaiClient (startup minio_New_ok fileWithCredentials noEnv)
  = Some (mkOpenAIClient "sk-file")
  /\ minioClient (startup minio_New_ok fileWithCredentials noEnv)
     = Some (mkMinioClient "localhost:9000"
               (mkMinioOptions
                  (mkCredentials "file-access-key" "file-secret-key" EmptyString)
                  false)).
Proof.
  apply (startup_with_file_credentials minio_New_ok fileWithCredentials noEnv
           "sk-file" "file-access-key" "file-secret-key"
           eq_refl eq_refl eq_refl eq_refl eq_refl eq_refl).
  - discriminate.
  - discriminate.
  - discriminate.
Defined.
